(** * pybacktrip: the OMIKB backend strategy ([pybacktrip/backends/omikb.py])

    A shallow embedding of [OmikbStrategy]: the namespace registry, the
    SPARQL text built by [triples], [add_triples], [remove] and
    [format_query], the decoder [__convert_json_entrydict], and the two
    operations that look at the HTTP status, [query] and [serialize]. *)

From Stdlib Require Import String Ascii List Bool ZArith Lia.
Import ListNotations.
Open Scope string_scope.

(** ** Python primitives used by the module *)

Module Py.

(** [s.startswith(p)] *)
Definition startswith (s p : string) : bool := String.prefix p s.

(** [s[1:]] *)
Definition slice1 (s : string) : string :=
  match s with
  | EmptyString => EmptyString
  | String _ rest => rest
  end.

(** [sep.join(l)] *)
Definition join (sep : string) (l : list string) : string :=
  String.concat sep l.

(** The characters that cannot be typed inside a literal. *)
Definition dquote : string := String (ascii_of_nat 34) EmptyString.
Definition newline : string := String (ascii_of_nat 10) EmptyString.

(** A [dict] with string keys.  Python dicts iterate in insertion order:
    assigning to a key that is present keeps its position, assigning to a
    new key appends, [del] removes the entry. *)
Definition dict (V : Type) : Type := list (string * V).

Section Dict.
Context {V : Type}.

Fixpoint get (d : dict V) (k : string) : option V :=
  match d with
  | [] => None
  | (k', v) :: rest => if (k' =? k)%string then Some v else get rest k
  end.

(** [k in d] *)
Definition mem (d : dict V) (k : string) : bool :=
  match get d k with Some _ => true | None => false end.

(** [d[k] = v] *)
Fixpoint set (d : dict V) (k : string) (v : V) : dict V :=
  match d with
  | [] => [(k, v)]
  | (k', v') :: rest =>
      if (k' =? k)%string then (k, v) :: rest
      else (k', v') :: set rest k v
  end.

(** [del d[k]], for a key that is present *)
Fixpoint del (d : dict V) (k : string) : dict V :=
  match d with
  | [] => []
  | (k', v') :: rest =>
      if (k' =? k)%string then rest else (k', v') :: del rest k
  end.

(** [d.items()] *)
Definition items (d : dict V) : list (string * V) := d.

Definition keys (d : dict V) : list string := map fst d.
End Dict.

End Py.

(** ** The namespace registry *)

Definition GRAPH : string := "graph://main".

Definition DEFAULT_NAMESPACES : Py.dict string :=
  [ ("owl", "http://www.w3.org/2002/07/owl#");
    ("rdf", "http://www.w3.org/1999/02/22-rdf-syntax-ns#");
    ("rdfs", "http://www.w3.org/2000/01/rdf-schema#");
    ("schema", "http://schema.org/") ].

(** [__init__]: a copy of the defaults with the base IRI under the empty
    prefix. *)
Definition init (base_iri : string) : Py.dict string :=
  Py.set DEFAULT_NAMESPACES EmptyString base_iri.

(** [bind]: a truthy namespace is stored, a falsy one removes the prefix
    when it is there. *)
Definition bind (namespaces : Py.dict string) (prefix namespace : string)
  : Py.dict string :=
  match namespace with
  | String _ _ => Py.set namespaces prefix namespace
  | EmptyString =>
      if Py.mem namespaces prefix then Py.del namespaces prefix
      else namespaces
  end.

(** The body of the loop of [format_query]:
    [query = f"PREFIX {prefix}: <{namespace}> {query}"]. *)
Definition prefix_clause (item : string * string) : string :=
  "PREFIX " ++ fst item ++ ": <" ++ snd item ++ "> ".

Definition format_query_step (query : string) (item : string * string)
  : string :=
  prefix_clause item ++ query.

(** [format_query] *)
Definition format_query (namespaces : Py.dict string) (query : string)
  : string :=
  fold_left format_query_step (Py.items namespaces) query.

(** What the contract of [addPrefixes] describes: the clauses in the
    registry's iteration order, followed by the query text.  Written from
    the specification, to be compared with [format_query]. *)
Definition addPrefixes_registry_order (namespaces : Py.dict string)
  (query : string) : string :=
  String.concat EmptyString (map prefix_clause (Py.items namespaces)) ++ query.

(** ** Terms, bindings and errors *)

(** [tripper.Literal] is a subclass of [str]: an instance is the string
    [lit_value] with the attributes [lang] and [datatype]. *)
Record Literal : Type := mkLiteral
  { lit_value : string;
    lit_lang : option string;
    lit_datatype : option string }.

(** A bound slot of a triple and a decoded term: a plain [str] or a
    [Literal]. *)
Inductive value : Type :=
| Str (s : string)
| Lit (l : Literal).

(** The characters of a value, which is what [startswith], slicing and
    string formatting see. *)
Definition str_of (v : value) : string :=
  match v with
  | Str s => s
  | Lit l => lit_value l
  end.

(** A triple pattern; [None] is an unbound slot. *)
Definition Triple : Type := (option value * option value * option value)%type.

(** One entry of a SPARQL JSON binding: the keys [type] and [value], and the
    optional keys [xml:lang] and [datatype]. *)
Record entrydict : Type := mkEntry
  { entry_type : string;
    entry_value : string;
    entry_lang : option string;
    entry_datatype : option string }.

(** A row of [results.bindings]: variable name to entry. *)
Definition binding : Type := Py.dict entrydict.

(** The exceptions of the module, all instances of Python's [Exception]
    (interpreter signals such as [KeyboardInterrupt] are not [Exception]s and
    are not part of the model).  [External] is any exception raised by code
    outside the module: the service client, [tripper], the file system. *)
Inductive exn : Type :=
| ValueError (offending : entrydict)
| KeyError (key : string)
| AttributeError (what : string)
| External (name message : string).

Inductive result (A : Type) : Type :=
| Return (a : A)
| Raise (e : exn).

Arguments Return {A} a.
Arguments Raise {A} e.

Definition rbind {A B : Type} (m : result A) (k : A -> result B) : result B :=
  match m with
  | Return a => k a
  | Raise e => Raise e
  end.

Declare Scope result_scope.
Delimit Scope result_scope with result.
Notation "x <- m ;; k" := (rbind m (fun x => k))
  (at level 61, m at next level, right associativity) : result_scope.
Open Scope result_scope.

(** A comprehension whose element expression may raise: the first exception
    ends it. *)
Fixpoint mapM {A B : Type} (f : A -> result B) (l : list A)
  : result (list B) :=
  match l with
  | [] => Return []
  | a :: rest =>
      b <- f a ;;
      bs <- mapM f rest ;;
      Return (b :: bs)
  end.

(** [d[k]] *)
Definition getitem {V : Type} (d : Py.dict V) (k : string) : result V :=
  match Py.get d k with
  | Some v => Return v
  | None => Raise (KeyError k)
  end.

(** [zip("spo", triple)] *)
Definition zip_spo (triple : Triple) : list (string * option value) :=
  let '(s, p, o) := triple in
  combine ["s"; "p"; "o"] [s; p; o].

(** ** The result decoder: [__convert_json_entrydict] *)

Definition convert_json_entrydict (namespaces : Py.dict string)
  (e : entrydict) : result value :=
  if (entry_type e =? "uri")%string then
    if Py.startswith (entry_value e) ":" then
      base <- getitem namespaces EmptyString ;;
      Return (Str ("<" ++ base ++ Py.slice1 (entry_value e) ++ ">"))
    else Return (Str (entry_value e))
  else if (entry_type e =? "literal")%string then
    Return (Lit (mkLiteral (entry_value e) (entry_lang e) (entry_datatype e)))
  else if (entry_type e =? "bnode")%string then
    Return (Str (if Py.startswith (entry_value e) "_:" then entry_value e
                 else "_:" ++ entry_value e))
  else Raise (ValueError e).

(** ** The pattern compiler: [triples], [add_triples], [remove] *)

Definition is_None {A : Type} (o : option A) : bool :=
  match o with None => true | Some _ => false end.

(** The projection of [triples]: one variable per unbound slot, [*] when the
    comprehension is empty. *)
Definition variables (triple : Triple) : list string :=
  let variables :=
    map (fun nv => "?" ++ fst nv)
        (filter (fun nv => is_None (snd nv)) (zip_spo triple)) in
  match variables with
  | [] => variables ++ ["*"]
  | _ :: _ => variables
  end.

(** One element of the generator joined into [whereSpec] by [triples]. *)
Definition triples_slot (namespaces : Py.dict string)
  (nv : string * option value) : result string :=
  let '(tripleName, tripleValue) := nv in
  match tripleValue with
  | None => Return ("?" ++ tripleName)
  | Some v =>
      if Py.startswith (str_of v) "<" then Return (str_of v)
      else if Py.startswith (str_of v) ":" then
        base <- getitem namespaces EmptyString ;;
        Return ("<" ++ base ++ Py.slice1 (str_of v) ++ ">")
      else Return ("<" ++ str_of v ++ ">")
  end.

Definition whereSpec (namespaces : Py.dict string) (triple : Triple)
  : result string :=
  slots <- mapM (triples_slot namespaces) (zip_spo triple) ;;
  Return (Py.join " " slots).

Definition indent12 : string := "            ".
Definition indent8 : string := "        ".

(** The text [query] built by [triples], with the line breaks and the
    indentation of the triple-quoted f-string. *)
Definition triples_query (namespaces : Py.dict string) (triple : Triple)
  : result string :=
  spec <- whereSpec namespaces triple ;;
  Return (Py.newline ++ indent12 ++ "SELECT " ++ Py.join " " (variables triple)
          ++ Py.newline ++ indent12 ++ "FROM <" ++ GRAPH ++ ">"
          ++ Py.newline ++ indent12 ++ "WHERE {" ++ spec ++ "}"
          ++ Py.newline ++ indent8).

(** One tuple yielded by [triples]: a slot whose name is a key of the
    binding is decoded, any other slot keeps the value of the pattern. *)
Definition triples_row_slot (namespaces : Py.dict string) (b : binding)
  (nv : string * option value) : result (option value) :=
  let '(name, value) := nv in
  if Py.mem b name then
    e <- getitem b name ;;
    v <- convert_json_entrydict namespaces e ;;
    Return (Some v)
  else Return value.

Definition triples_row (namespaces : Py.dict string) (triple : Triple)
  (b : binding) : result (list (option value)) :=
  mapM (triples_row_slot namespaces b) (zip_spo triple).

(** The tuple of a triple, for comparing a yielded tuple with a pattern. *)
Definition tuple_of (triple : Triple) : list (option value) :=
  let '(s, p, o) := triple in [s; p; o].

(** The generator of [triples] over the rows of the response: the tuples
    yielded, and the exception that ended the iteration if one did. *)
Fixpoint triples_rows (namespaces : Py.dict string) (triple : Triple)
  (rows : list binding) : list (list (option value)) * option exn :=
  match rows with
  | [] => ([], None)
  | b :: rest =>
      match triples_row namespaces triple b with
      | Raise e => ([], Some e)
      | Return t =>
          let '(ts, stop) := triples_rows namespaces triple rest in
          (t :: ts, stop)
      end
  end.

Section Rendering.

(** [Literal.n3], the canonical quoted form of a literal, belongs to
    [tripper]. *)
Variable n3 : Literal -> string.

(** One value of a triple in [add_triples].  Every [Literal] has the
    attribute [n3]; an unbound slot has no [startswith]. *)
Definition add_triples_value (namespaces : Py.dict string)
  (slot : option value) : result string :=
  match slot with
  | None => Raise (AttributeError "startswith")
  | Some (Lit l) => Return (n3 l)
  | Some (Str value) =>
      if Py.startswith value "<" || Py.startswith value Py.dquote then
        Return value
      else if Py.mem namespaces EmptyString && Py.startswith value ":" then
        base <- getitem namespaces EmptyString ;;
        Return ("<" ++ base ++ Py.slice1 value ++ ">")
      else if Py.startswith value ":" then Return value
      else Return ("<" ++ value ++ ">")
  end.

Definition add_triples_triple (namespaces : Py.dict string) (triple : Triple)
  : result string :=
  values <- mapM (add_triples_value namespaces) (tuple_of triple) ;;
  Return (Py.join " " values ++ " .").

(** The update text [cmd] built by [add_triples]. *)
Definition add_triples_cmd (namespaces : Py.dict string)
  (triples : list Triple) : result string :=
  specs <- mapM (add_triples_triple namespaces) triples ;;
  Return ("INSERT DATA { GRAPH <" ++ GRAPH ++ "> { "
          ++ Py.join " " specs ++ " } }").

(** One slot of the pattern in [remove]. *)
Definition remove_slot (namespaces : Py.dict string)
  (nv : string * option value) : result string :=
  let '(name, slot) := nv in
  match slot with
  | None => Return ("?" ++ name)
  | Some (Lit l) => Return (n3 l)
  | Some (Str value) =>
      if Py.startswith value "<" || Py.startswith value Py.dquote then
        Return value
      else if Py.startswith value ":" then
        base <- getitem namespaces EmptyString ;;
        Return ("<" ++ base ++ Py.slice1 value ++ ">")
      else Return ("<" ++ value ++ ">")
  end.

(** The update text [cmd] built by [remove]. *)
Definition remove_cmd (namespaces : Py.dict string) (triple : Triple)
  : result string :=
  slots <- mapM (remove_slot namespaces) (zip_spo triple) ;;
  Return ("DELETE WHERE { GRAPH <" ++ GRAPH ++ "> { "
          ++ Py.join " " slots ++ " } }").

End Rendering.

(** ** The service client and the operations that dispatch to it *)

(** The body of a SPARQL JSON response as [query] reads it:
    [res["head"]["vars"]] and [res["results"]["bindings"]]; either key may
    be missing (an ASK response has no bindings). *)
Record sparql_json : Type := mkJson
  { head_vars : option (list string);
    results_bindings : option (list binding) }.

(** The response object of the client: [status_code], [text] and the
    method [json()], which raises on a body that is not JSON. *)
Record Response : Type := mkResponse
  { status_code : Z;
    text : string;
    json : result sparql_json }.

(** [destination] of [serialize]: a [str] (the default is the empty string)
    or a file object. *)
Inductive destination : Type :=
| DestStr (path : string)
| DestIO (handle : nat).

(** [not destination]: only the empty string is falsy. *)
Definition falsy (d : destination) : bool :=
  match d with
  | DestStr EmptyString => true
  | _ => false
  end.

(** What the outside world answers: [kb.query], and whether opening or
    writing a destination fails. *)
Record environment : Type := mkEnv
  { kb_query : string -> result Response;
    write_fault : destination -> option exn }.

(** What the rows of a result are: tuples of decoded terms. *)
Definition rows : Type := list (list value).

(** The observable effects: lines printed to standard output and content
    written to a destination. *)
Inductive event : Type :=
| PrintExecuting (query_object : string)
| PrintQuery (q : string)
| PrintBadRequest (response_text : string)
| PrintFailed (e : exn)
| PrintResult (triplesRes : rows)
| WriteFile (path content : string)
| WriteStream (handle : nat) (content : string).

Definition is_write (ev : event) : bool :=
  match ev with
  | WriteFile _ _ | WriteStream _ _ => true
  | _ => false
  end.

(** A computation that may raise and that appends to the trace of effects. *)
Definition io (A : Type) : Type := list event -> result A * list event.

Definition io_ret {A : Type} (a : A) : io A := fun tr => (Return a, tr).

Definition io_bind {A B : Type} (m : io A) (k : A -> io B) : io B :=
  fun tr =>
    match m tr with
    | (Return a, tr') => k a tr'
    | (Raise e, tr') => (Raise e, tr')
    end.

Definition lift {A : Type} (r : result A) : io A := fun tr => (r, tr).

Definition emit (ev : event) : io unit := fun tr => (Return tt, (tr ++ [ev])%list).

(** [try: m except Exception as e: handler e] *)
Definition try_except {A : Type} (m : io A) (handler : exn -> io A) : io A :=
  fun tr =>
    match m tr with
    | (Return a, tr') => (Return a, tr')
    | (Raise e, tr') => handler e tr'
    end.

Declare Scope io_scope.
Delimit Scope io_scope with io.
Notation "x <- m ;; k" := (io_bind m (fun x => k))
  (at level 61, m at next level, right associativity) : io_scope.
Notation "m ;; k" := (io_bind m (fun _ => k))
  (at level 61, right associativity) : io_scope.

(** The decoding loops of [query]: for each binding, one column per
    variable of [head.vars], in that order. *)
Definition decode_binding_row (namespaces : Py.dict string)
  (queryVars : list string) (b : binding) : result (list value) :=
  mapM (fun var => e <- getitem b var ;; convert_json_entrydict namespaces e)
       queryVars.

Definition required {A : Type} (key : string) (o : option A) : result A :=
  match o with
  | Some a => Return a
  | None => Raise (KeyError key)
  end.

(** [query].  The [inl] of the protected block is a [return] inside it. *)
Definition query (env : environment) (namespaces : Py.dict string)
  (query_object : string) : io (option rows) :=
  (emit (PrintExecuting query_object) ;;
   r <- try_except
          (response <- lift (kb_query env (format_query namespaces query_object)) ;;
           if (status_code response =? 400)%Z then
             emit (PrintBadRequest (text response)) ;;
             io_ret (inl None)
           else
             res <- lift (json response) ;;
             io_ret (inr res))
          (fun e => emit (PrintFailed e) ;; io_ret (inl None)) ;;
   match r with
   | inl returned => io_ret returned
   | inr res =>
       queryVars <- lift (required "vars" (head_vars res)) ;;
       queryBindings <- lift (required "bindings" (results_bindings res)) ;;
       triplesRes <- lift (mapM (decode_binding_row namespaces queryVars)
                                queryBindings) ;;
       emit (PrintResult triplesRes) ;;
       io_ret (Some triplesRes)
   end)%io.

(** Writing [content] to a destination that is not falsy. *)
Definition write_destination (env : environment) (d : destination)
  (content : string) : io unit :=
  match write_fault env d with
  | Some e => lift (Raise e)
  | None =>
      match d with
      | DestStr path => emit (WriteFile path content)
      | DestIO handle => emit (WriteStream handle content)
      end
  end.

(** [serialize]; the result [None] is Python's [None]. *)
Definition serialize (env : environment) (namespaces : Py.dict string)
  (dest : destination) : io (option string) :=
  (let q := format_query namespaces
              ("SELECT * WHERE { GRAPH <" ++ GRAPH ++ "> { ?s ?p ?o } }") in
   emit (PrintQuery q) ;;
   response <- lift (kb_query env q) ;;
   if (status_code response =? 400)%Z then
     emit (PrintBadRequest (text response)) ;;
     io_ret None
   else
     let content := text response in
     if falsy dest then io_ret (Some content)
     else
       write_destination env dest content ;;
       io_ret (Some EmptyString))%io.

(** ** Comparing query texts up to layout *)

(** White space as [str.split()] sees it in the texts built here. *)
Definition is_space (c : ascii) : bool :=
  match nat_of_ascii c with
  | 9 | 10 | 11 | 12 | 13 | 32 => true
  | _ => false
  end.

(** [s.split()]: the maximal runs of characters that are not white space. *)
Fixpoint split_from (word s : string) : list string :=
  match s with
  | EmptyString =>
      match word with
      | EmptyString => []
      | String _ _ => [word]
      end
  | String c rest =>
      if is_space c then
        match word with
        | EmptyString => split_from EmptyString rest
        | String _ _ => word :: split_from EmptyString rest
        end
      else split_from (word ++ String c EmptyString) rest
  end.

Definition split (s : string) : list string := split_from EmptyString s.

(** [" ".join(s.split())] *)
Definition single_spaced (s : string) : string := Py.join " " (split s).

(** A pattern with no unbound slot. *)
Definition fully_bound (triple : Triple) : bool :=
  forallb (fun slot => negb (is_None slot)) (tuple_of triple).

(** The number of unbound slots of a pattern. *)
Definition unbound_count (triple : Triple) : nat :=
  length (filter is_None (tuple_of triple)).

(** The discriminators that the decoder knows. *)
Definition known_type (t : string) : bool :=
  (t =? "uri")%string || (t =? "literal")%string || (t =? "bnode")%string.

(** The registry of an adapter created on the base IRI [http://ex.org/]. *)
Definition ex_namespaces : Py.dict string := init "http://ex.org/".

(** The quoted literal ["c"], as a caller writes it. *)
Definition quoted_c : string := Py.dquote ++ "c" ++ Py.dquote.

(** A service that answers every query with the status 400. *)
Definition bad_request_env : environment :=
  mkEnv (fun _ => Return (mkResponse 400 "MALFORMED QUERY"
                            (Raise (External "JSONDecodeError" "not JSON"))))
        (fun _ => None).

(** A service that cannot be reached. *)
Definition unreachable_env : environment :=
  mkEnv (fun _ => Raise (External "ConnectionError" "connection refused"))
        (fun _ => None).

(** ** The registry over the life of an adapter *)

(** A sequence of calls [bind(prefix, namespace)] on a registry. *)
Definition binds (namespaces : Py.dict string)
  (calls : list (string * string)) : Py.dict string :=
  fold_left (fun ns call => bind ns (fst call) (snd call)) calls namespaces.

(** ** Kinds of slots *)

(** A bound slot whose characters begin with the shorthand marker. *)
Definition shorthand (slot : option value) : bool :=
  match slot with
  | Some v => Py.startswith (str_of v) ":"
  | None => false
  end.

(** A bound slot that is a plain [str] beginning with the shorthand
    marker. *)
Definition shorthand_str (slot : option value) : bool :=
  match slot with
  | Some (Str s) => Py.startswith s ":"
  | _ => false
  end.

(** A slot that is unbound or a plain [str] without a leading quote. *)
Definition unquoted_str (slot : option value) : bool :=
  match slot with
  | None => true
  | Some (Str s) => negb (Py.startswith s Py.dquote)
  | Some (Lit _) => false
  end.

(** A slot of a WHERE clause that is a SPARQL variable. *)
Definition is_variable (slot_text : string) : bool :=
  Py.startswith slot_text "?".

(** The entry [e] with another [value]. *)
Definition with_value (e : entrydict) (v : string) : entrydict :=
  mkEntry (entry_type e) v (entry_lang e) (entry_datatype e).

(** ** Example responses *)

(** A response with two rows over the variables [s] and [o]; the second row
    leaves [o] unbound, as a row of an OPTIONAL pattern does. *)
Definition optional_row_json : sparql_json :=
  mkJson (Some ["s"; "o"])
         (Some [ [("s", mkEntry "uri" "http://ex.org/a" None None);
                  ("o", mkEntry "literal" "5" None (Some "xsd:integer"))];
                 [("s", mkEntry "uri" "http://ex.org/b" None None)] ]).

Definition optional_row_env : environment :=
  mkEnv (fun _ => Return (mkResponse 200 "{}" (Return optional_row_json)))
        (fun _ => None).

(** A response with one complete row over [s] and [o]. *)
Definition one_row_json : sparql_json :=
  mkJson (Some ["s"; "o"])
         (Some [ [("o", mkEntry "bnode" "b0" None None);
                  ("s", mkEntry "uri" "http://ex.org/a" None None)] ]).

Definition one_row_env : environment :=
  mkEnv (fun _ => Return (mkResponse 200 "{}" (Return one_row_json)))
        (fun _ => None).

(** A service that answers with a server error and a body. *)
Definition server_error_env : environment :=
  mkEnv (fun _ => Return (mkResponse 500 "Internal Server Error"
                            (Raise (External "JSONDecodeError" "not JSON"))))
        (fun _ => None).

(** The write event of a destination that is not the empty string. *)
Definition write_event (d : destination) (content : string) : event :=
  match d with
  | DestStr path => WriteFile path content
  | DestIO handle => WriteStream handle content
  end.

(** The text that [serialize] formats and dispatches. *)
Definition serialize_query (namespaces : Py.dict string) : string :=
  format_query namespaces
    "SELECT * WHERE { GRAPH <graph://main> { ?s ?p ?o } }".

(** ** [parse] *)

(** [source] of [parse]: a [str] (the default is the empty string) or a file
    object. *)
Inductive parse_source : Type :=
| SourceStr (name : string)
| SourceIO (handle : nat).

(** The call of [kb.import_ontology] that [parse] makes: the source or the
    location as the positional argument, or the data as the keyword
    [data]. *)
Inductive import_call : Type :=
| ImportPositional (source : parse_source)
| ImportData (data : string).

(** How a call of [parse] ends. *)
Inductive parse_outcome : Type :=
| ParseValueError (message : string)
| ParseImportRaised (call : import_call) (e : exn)
| ParseComplete (call : import_call).

Definition source_given (source : parse_source) : bool :=
  match source with
  | SourceStr EmptyString => false
  | _ => true
  end.

Definition str_given (s : string) : bool :=
  match s with
  | EmptyString => false
  | String _ _ => true
  end.

(** [parse]; [import_ontology] answers with the exception that the import
    raises, if it raises.  The argument [format] is not used. *)
Definition parse (import_ontology : import_call -> option exn)
  (source : parse_source) (location data format : string) : parse_outcome :=
  if negb (source_given source) && negb (str_given location)
     && negb (str_given data)
  then ParseValueError
         "One of 'source', 'location', or 'data' must be provided."
  else
    let call :=
      if source_given source then ImportPositional source
      else if str_given location then ImportPositional (SourceStr location)
      else ImportData data in
    match import_ontology call with
    | Some e => ParseImportRaised call e
    | None => ParseComplete call
    end.

(** * Properties *)

(** ** Strings and the registry *)

Lemma string_app_assoc (a b c : string) : (a ++ b) ++ c = a ++ (b ++ c).
Proof.
  induction a as [| ch a IH]; simpl.
  - reflexivity.
  - now rewrite IH.
Qed.

Lemma concat_empty_app (l1 l2 : list string) :
  String.concat EmptyString (l1 ++ l2)
  = String.concat EmptyString l1 ++ String.concat EmptyString l2.
Proof.
  induction l1 as [| x l1 IH]; simpl.
  - reflexivity.
  - destruct l1 as [| y l1].
    + simpl. destruct l2; simpl.
      * clear IH. induction x; simpl; congruence.
      * reflexivity.
    + change ((y :: l1) ++ l2)%list with (y :: (l1 ++ l2))%list in *.
      rewrite IH. now rewrite string_app_assoc.
Qed.

Lemma concat_empty_single (x : string) :
  String.concat EmptyString [x] = x.
Proof. reflexivity. Qed.

(** Each pass of the loop of [format_query] puts its clause in front of what
    the earlier passes built. *)
Lemma format_query_snoc (namespaces : Py.dict string) (item : string * string)
  (query : string) :
  format_query (namespaces ++ [item])%list query
  = prefix_clause item ++ format_query namespaces query.
Proof.
  unfold format_query, Py.items. now rewrite fold_left_app.
Qed.

Lemma format_query_fold (items : list (string * string)) (query : string) :
  fold_left format_query_step items query
  = String.concat EmptyString (map prefix_clause (rev items)) ++ query.
Proof.
  revert query. induction items as [| item items IH]; intro query.
  - reflexivity.
  - simpl. rewrite IH, map_app, concat_empty_app, string_app_assoc.
    reflexivity.
Qed.

(** C4, as stated, fails on the registry of a new adapter: the clause of the
    last entry (the empty prefix) comes first and the clause of the first
    entry ([owl]) comes last, so the text is not the one with the clauses in
    iteration order. *)
Lemma format_query_not_registry_order :
  Py.keys ex_namespaces = ["owl"; "rdf"; "rdfs"; "schema"; EmptyString]
  /\ format_query ex_namespaces "ASK {}"
     = "PREFIX : <http://ex.org/> PREFIX schema: <http://schema.org/> "
       ++ "PREFIX rdfs: <http://www.w3.org/2000/01/rdf-schema#> "
       ++ "PREFIX rdf: <http://www.w3.org/1999/02/22-rdf-syntax-ns#> "
       ++ "PREFIX owl: <http://www.w3.org/2002/07/owl#> ASK {}"
  /\ format_query ex_namespaces "ASK {}"
     <> addPrefixes_registry_order ex_namespaces "ASK {}".
Proof.
  split; [reflexivity | split; [reflexivity |]].
  vm_compute. discriminate.
Qed.

(** C4, amended: [format_query] puts exactly one clause
    [PREFIX p: <uri> ] per registry entry in front of the query text, and
    the clauses stand in the reverse of the registry's iteration order. *)
Theorem format_query_reverse_order (namespaces : Py.dict string)
  (query : string) :
  format_query namespaces query
  = String.concat EmptyString
      (map prefix_clause (rev (Py.items namespaces))) ++ query
  /\ length (map prefix_clause (rev (Py.items namespaces)))
     = length (Py.items namespaces).
Proof.
  split.
  - apply format_query_fold.
  - now rewrite length_map, length_rev.
Qed.

(** ** The decoder *)

Lemma startswith_colon (rest : string) : Py.startswith (":" ++ rest) ":" = true.
Proof. destruct rest; reflexivity. Qed.

Lemma startswith_char (s : string) (c : ascii) :
  Py.startswith s (String c EmptyString) = true ->
  exists rest, s = String c rest.
Proof.
  unfold Py.startswith. destruct s as [| c' rest]; simpl; [discriminate |].
  destruct (ascii_dec c c') as [<- |]; [| discriminate].
  intros _. now exists rest.
Qed.

Lemma startswith_blank (rest : string) :
  Py.startswith ("_:" ++ rest) "_:" = true.
Proof. destruct rest; reflexivity. Qed.

Lemma getitem_bound {V : Type} (d : Py.dict V) (k : string) (v : V) :
  Py.get d k = Some v -> getitem d k = Return v.
Proof. unfold getitem. now intros ->. Qed.

(** C1, as stated, fails: with the empty prefix bound to [http://ex.org/]
    the entry of type [uri] and value [:Foo] is not decoded to the bare
    string [http://ex.org/Foo]; the string returned is delimited. *)
Lemma convert_uri_shorthand_not_bare :
  convert_json_entrydict ex_namespaces (mkEntry "uri" ":Foo" None None)
  <> Return (Str "http://ex.org/Foo").
Proof. vm_compute. discriminate. Qed.

(** C1, amended: for an entry of type [uri], with the empty prefix bound to
    [base], a value [:rest] is decoded to the delimited string
    [<base rest>] (so [:Foo] under [http://ex.org/] gives
    [<http://ex.org/Foo>]), and a value that does not start with [:] is
    returned as it is. *)
Theorem convert_uri_entry_delimited (namespaces : Py.dict string) (base : string)
  (e : entrydict) :
  entry_type e = "uri" ->
  Py.get namespaces EmptyString = Some base ->
  (forall rest, entry_value e = ":" ++ rest ->
     convert_json_entrydict namespaces e
     = Return (Str ("<" ++ base ++ rest ++ ">")))
  /\ (Py.startswith (entry_value e) ":" = false ->
      convert_json_entrydict namespaces e = Return (Str (entry_value e))).
Proof.
  intros Htype Hbase. unfold convert_json_entrydict.
  rewrite Htype, String.eqb_refl.
  split.
  - intros rest Hvalue. rewrite Hvalue, startswith_colon.
    rewrite (getitem_bound _ _ _ Hbase). reflexivity.
  - intros Hplain. now rewrite Hplain.
Qed.

Lemma convert_uri_entry_delimited_witness :
  convert_json_entrydict ex_namespaces (mkEntry "uri" ":Foo" None None)
  = Return (Str "<http://ex.org/Foo>")
  /\ convert_json_entrydict ex_namespaces
       (mkEntry "uri" "http://ex.org/Bar" None None)
     = Return (Str "http://ex.org/Bar").
Proof.
  split.
  - exact (proj1 (convert_uri_entry_delimited ex_namespaces "http://ex.org/"
                    (mkEntry "uri" ":Foo" None None) eq_refl eq_refl)
                 "Foo" eq_refl).
  - exact (proj2 (convert_uri_entry_delimited ex_namespaces "http://ex.org/"
                    (mkEntry "uri" "http://ex.org/Bar" None None)
                    eq_refl eq_refl)
                 eq_refl).
Defined.

(** The [ValueError] is raised exactly for the discriminators that are none
    of [uri], [literal] and [bnode], and it carries the entry. *)
Lemma convert_ValueError_iff (namespaces : Py.dict string) (e : entrydict) :
  (exists offending,
     convert_json_entrydict namespaces e = Raise (ValueError offending))
  <-> known_type (entry_type e) = false.
Proof.
  unfold convert_json_entrydict, known_type.
  destruct (entry_type e =? "uri")%string; simpl.
  - split; [| discriminate].
    intros [off H].
    destruct (Py.startswith (entry_value e) ":"); [| discriminate].
    unfold getitem in H. destruct (Py.get namespaces EmptyString); discriminate.
  - destruct (entry_type e =? "literal")%string; simpl.
    + split; [intros [off H] |]; discriminate.
    + destruct (entry_type e =? "bnode")%string; simpl.
      * split; [intros [off H] |]; discriminate.
      * split; [reflexivity | intros _; now exists e].
Qed.

Lemma convert_ValueError_carries_entry (namespaces : Py.dict string)
  (e offending : entrydict) :
  convert_json_entrydict namespaces e = Raise (ValueError offending) ->
  offending = e.
Proof.
  unfold convert_json_entrydict.
  destruct (entry_type e =? "uri")%string.
  - destruct (Py.startswith (entry_value e) ":"); [| discriminate].
    unfold getitem. destruct (Py.get namespaces EmptyString); discriminate.
  - destruct (entry_type e =? "literal")%string; [discriminate |].
    destruct (entry_type e =? "bnode")%string; [discriminate |].
    congruence.
Qed.

(** With the empty prefix bound, an entry of a known type is decoded. *)
Lemma convert_known_type_returns (namespaces : Py.dict string) (e : entrydict) :
  Py.mem namespaces EmptyString = true ->
  known_type (entry_type e) = true ->
  exists v, convert_json_entrydict namespaces e = Return v.
Proof.
  unfold Py.mem, convert_json_entrydict, known_type, getitem.
  intros Hmem Hknown.
  destruct (Py.get namespaces EmptyString) as [base |]; [| discriminate].
  destruct (entry_type e =? "uri")%string.
  - destruct (Py.startswith (entry_value e) ":"); simpl; eauto.
  - destruct (entry_type e =? "literal")%string; [eauto |].
    destruct (entry_type e =? "bnode")%string; [eauto | discriminate].
Qed.

(** A blank node is returned with a leading [_:], added only when absent. *)
Lemma convert_bnode (namespaces : Py.dict string) (e : entrydict) :
  entry_type e = "bnode" ->
  exists s,
    convert_json_entrydict namespaces e = Return (Str s)
    /\ Py.startswith s "_:" = true
    /\ (Py.startswith (entry_value e) "_:" = true -> s = entry_value e)
    /\ (Py.startswith (entry_value e) "_:" = false ->
        s = "_:" ++ entry_value e).
Proof.
  intros Htype.
  assert (Hconv : convert_json_entrydict namespaces e
                  = Return (Str (if Py.startswith (entry_value e) "_:"
                                 then entry_value e
                                 else "_:" ++ entry_value e))).
  { unfold convert_json_entrydict. now rewrite Htype. }
  rewrite Hconv.
  destruct (Py.startswith (entry_value e) "_:") eqn:Hpre.
  - exists (entry_value e). repeat split; auto. discriminate.
  - exists ("_:" ++ entry_value e). repeat split; auto.
    + apply startswith_blank.
    + discriminate.
Qed.

(** C9 at the input where the code departs from it: once the empty prefix
    has been unbound with [bind], the entry of the known type [uri] and value
    [:Foo] makes the decoder raise, and the exception is the [KeyError] of
    the registry lookup.  [add_triples] tests that the empty prefix is
    bound before the same lookup and gives the value back. *)
Theorem convert_uri_unbound_prefix_raises :
  let namespaces := bind ex_namespaces EmptyString EmptyString in
  Py.mem namespaces EmptyString = false
  /\ known_type "uri" = true
  /\ convert_json_entrydict namespaces (mkEntry "uri" ":Foo" None None)
     = Raise (KeyError EmptyString)
  /\ forall n3, add_triples_value n3 namespaces (Some (Str ":Foo"))
                = Return ":Foo".
Proof. repeat split. Qed.

(** ** The pattern compiler *)

(** C2, as stated, fails: the text compiled for the pattern
    [(None, <http://b>, None)] is not the single-line string of the
    claim. *)
Lemma triples_query_not_single_line :
  triples_query ex_namespaces (None, Some (Str "<http://b>"), None)
  <> Return "SELECT ?s ?o FROM <graph://main> WHERE {?s <http://b> ?o}".
Proof. vm_compute. discriminate. Qed.

(** C2, amended: whatever the registry, the text compiled for the pattern
    [(None, <http://b>, None)] is the three clauses of the claim, each on a
    line of its own after twelve spaces, between a leading line break and a
    closing line break with eight spaces; read with every run of white space
    as one space and none at the ends, it is the string of the claim. *)
Theorem triples_query_example (namespaces : Py.dict string) :
  triples_query namespaces (None, Some (Str "<http://b>"), None)
  = Return (Py.newline ++ indent12 ++ "SELECT ?s ?o"
            ++ Py.newline ++ indent12 ++ "FROM <graph://main>"
            ++ Py.newline ++ indent12 ++ "WHERE {?s <http://b> ?o}"
            ++ Py.newline ++ indent8)
  /\ single_spaced (Py.newline ++ indent12 ++ "SELECT ?s ?o"
            ++ Py.newline ++ indent12 ++ "FROM <graph://main>"
            ++ Py.newline ++ indent12 ++ "WHERE {?s <http://b> ?o}"
            ++ Py.newline ++ indent8)
     = "SELECT ?s ?o FROM <graph://main> WHERE {?s <http://b> ?o}".
Proof. split; reflexivity. Qed.

(** The cases of a bound slot in [triples]. *)
Lemma triples_slot_delimited (namespaces : Py.dict string) (name : string)
  (v : value) :
  Py.startswith (str_of v) "<" = true ->
  triples_slot namespaces (name, Some v) = Return (str_of v).
Proof. unfold triples_slot. now intros ->. Qed.

Lemma triples_slot_shorthand (namespaces : Py.dict string) (name base : string)
  (v : value) :
  Py.startswith (str_of v) ":" = true ->
  Py.get namespaces EmptyString = Some base ->
  triples_slot namespaces (name, Some v)
  = Return ("<" ++ base ++ Py.slice1 (str_of v) ++ ">").
Proof.
  intros Hcolon Hbase. unfold triples_slot.
  destruct (Py.startswith (str_of v) "<") eqn:Hlt.
  - apply startswith_char in Hcolon. apply startswith_char in Hlt.
    destruct Hcolon as [r1 E1], Hlt as [r2 E2]. rewrite E1 in E2.
    discriminate.
  - rewrite Hcolon, (getitem_bound _ _ _ Hbase). reflexivity.
Qed.

Lemma triples_slot_other (namespaces : Py.dict string) (name : string)
  (v : value) :
  Py.startswith (str_of v) "<" = false ->
  Py.startswith (str_of v) ":" = false ->
  triples_slot namespaces (name, Some v) = Return ("<" ++ str_of v ++ ">").
Proof. unfold triples_slot. now intros -> ->. Qed.

(** C3 at the input where the code departs from it: in [triples] the quoted
    literal ["c"] in the object slot is put into the WHERE clause inside
    URI angle brackets, whereas [remove] and [add_triples], which test for a
    leading quote, leave the same value as it is. *)
Theorem triples_wraps_quoted_literal (namespaces : Py.dict string) :
  whereSpec namespaces (None, None, Some (Str quoted_c))
  = Return ("?s ?p <" ++ quoted_c ++ ">")
  /\ triples_query namespaces (None, None, Some (Str quoted_c))
     = Return (Py.newline ++ indent12 ++ "SELECT ?s ?p"
               ++ Py.newline ++ indent12 ++ "FROM <graph://main>"
               ++ Py.newline ++ indent12 ++ "WHERE {?s ?p <" ++ quoted_c ++ ">}"
               ++ Py.newline ++ indent8)
  /\ (forall n3, remove_slot n3 namespaces ("o", Some (Str quoted_c))
                 = Return quoted_c)
  /\ (forall n3, add_triples_value n3 namespaces (Some (Str quoted_c))
                 = Return quoted_c).
Proof. repeat split. Qed.

(** C8: the update text compiled by [add_triples] for the single triple
    [(<http://a>, <http://b>, "c")] is, character for character,
    [INSERT DATA { GRAPH <graph://main> { <http://a> <http://b> "c" . } }],
    whatever the registry holds. *)
Theorem add_triples_cmd_example (n3 : Literal -> string)
  (namespaces : Py.dict string) :
  add_triples_cmd n3 namespaces
    [(Some (Str "<http://a>"), Some (Str "<http://b>"), Some (Str quoted_c))]
  = Return ("INSERT DATA { GRAPH <graph://main> { <http://a> <http://b> "
            ++ Py.dquote ++ "c" ++ Py.dquote ++ " . } }").
Proof. reflexivity. Qed.

Ltac solve_in :=
  simpl; repeat split; intros;
  repeat match goal with
         | H : _ \/ _ |- _ => destruct H
         | H : False |- _ => destruct H
         end;
  subst; try discriminate; try reflexivity; auto 6.

(** C7: the projection of [triples] has exactly one variable per unbound
    slot, named after the position of the slot: with no unbound slot it is
    [*]; otherwise it has as many variables as unbound slots, none twice,
    [?s], [?p], [?o] being there exactly when the subject, the predicate,
    the object is unbound, and nothing else; with a single unbound slot it
    is the one variable of that slot.  The SELECT clause of the compiled
    text is this projection, joined with spaces. *)
Theorem variables_projection (s p o : option value) :
  (unbound_count (s, p, o) = 0 -> variables (s, p, o) = ["*"])
  /\ (unbound_count (s, p, o) <> 0 ->
      length (variables (s, p, o)) = unbound_count (s, p, o)
      /\ NoDup (variables (s, p, o))
      /\ (In "?s" (variables (s, p, o)) <-> s = None)
      /\ (In "?p" (variables (s, p, o)) <-> p = None)
      /\ (In "?o" (variables (s, p, o)) <-> o = None)
      /\ (forall x, In x (variables (s, p, o)) ->
                    x = "?s" \/ x = "?p" \/ x = "?o"))
  /\ (unbound_count (s, p, o) = 1 ->
      (s = None /\ variables (s, p, o) = ["?s"])
      \/ (p = None /\ variables (s, p, o) = ["?p"])
      \/ (o = None /\ variables (s, p, o) = ["?o"]))
  /\ (forall namespaces spec,
        whereSpec namespaces (s, p, o) = Return spec ->
        triples_query namespaces (s, p, o)
        = Return (Py.newline ++ indent12 ++ "SELECT "
                  ++ Py.join " " (variables (s, p, o))
                  ++ Py.newline ++ indent12 ++ "FROM <" ++ GRAPH ++ ">"
                  ++ Py.newline ++ indent12 ++ "WHERE {" ++ spec ++ "}"
                  ++ Py.newline ++ indent8)).
Proof.
  split; [| split; [| split]].
  - destruct s, p, o; simpl; intros H; try discriminate H; reflexivity.
  - intros Hsome. split; [| split; [| split; [| split; [| split]]]].
    + destruct s, p, o; try reflexivity. now elim Hsome.
    + destruct s, p, o; simpl;
        repeat (constructor; [simpl; intuition discriminate |]);
        constructor.
    + destruct s, p, o; solve_in; now elim Hsome.
    + destruct s, p, o; solve_in; now elim Hsome.
    + destruct s, p, o; solve_in; now elim Hsome.
    + destruct s, p, o; solve_in; now elim Hsome.
  - destruct s, p, o; simpl; intros H; try discriminate H; auto.
  - intros namespaces spec Hspec. unfold triples_query. now rewrite Hspec.
Qed.

Lemma variables_projection_witness :
  variables (Some (Str "<http://a>"), Some (Str "<http://b>"),
             Some (Str "<http://c>")) = ["*"]
  /\ length (variables (None, Some (Str "<http://b>"), None)) = 2.
Proof.
  split.
  - exact (proj1 (variables_projection (Some (Str "<http://a>"))
                    (Some (Str "<http://b>")) (Some (Str "<http://c>")))
                 eq_refl).
  - refine (proj1 (proj1 (proj2 (variables_projection
                                   None (Some (Str "<http://b>")) None)) _)).
    simpl. discriminate.
Defined.

(** ** Decoding a row against the pattern *)

(** C6: for a fully bound triple, the tuple decoded against the empty
    binding is the triple itself, and the generator over a response of one
    empty row yields that tuple and ends normally. *)
Theorem triples_row_empty_binding (namespaces : Py.dict string)
  (t : Triple) :
  fully_bound t = true ->
  triples_row namespaces t [] = Return (tuple_of t)
  /\ triples_rows namespaces t [[]] = ([tuple_of t], None).
Proof.
  intros _. destruct t as [[s p] o]. split; reflexivity.
Qed.

Lemma triples_row_empty_binding_witness :
  fully_bound (Some (Str "<http://a>"), Some (Str "<http://b>"),
               Some (Str quoted_c)) = true
  /\ triples_row ex_namespaces
       (Some (Str "<http://a>"), Some (Str "<http://b>"), Some (Str quoted_c))
       []
     = Return [Some (Str "<http://a>"); Some (Str "<http://b>");
               Some (Str quoted_c)].
Proof.
  split; [reflexivity |].
  exact (proj1 (triples_row_empty_binding ex_namespaces
                  (Some (Str "<http://a>"), Some (Str "<http://b>"),
                   Some (Str quoted_c)) eq_refl)).
Defined.

(** ** The operations that look at the status of the response *)

Lemma filter_is_write_prints (tr : list event) (printed : list event) :
  forallb (fun ev => negb (is_write ev)) printed = true ->
  filter is_write (tr ++ printed) = filter is_write tr.
Proof.
  intros Hprints. rewrite filter_app.
  replace (filter is_write printed) with (@nil event).
  - apply app_nil_r.
  - induction printed as [| ev printed IH]; [reflexivity |].
    simpl in *. apply andb_true_iff in Hprints as [Hev Hrest].
    destruct (is_write ev); [discriminate |]. now apply IH.
Qed.

(** C5: when the dispatch of [query] raises (in the client call or in
    reading the JSON body) or the response has the status 400, [query]
    returns [None]: it does not raise, and all it leaves is two printed
    lines. *)
Theorem query_failure_returns_None (env : environment)
  (namespaces : Py.dict string) (query_object : string) (tr : list event) :
  (exists e, kb_query env (format_query namespaces query_object) = Raise e)
  \/ (exists r,
        kb_query env (format_query namespaces query_object) = Return r
        /\ (status_code r = 400%Z \/ exists e, json r = Raise e)) ->
  fst (query env namespaces query_object tr) = Return None
  /\ exists line,
       snd (query env namespaces query_object tr)
       = (tr ++ [PrintExecuting query_object; line])%list
       /\ is_write line = false.
Proof.
  unfold query, io_bind, try_except, emit, lift, io_ret. simpl.
  intros [[e He] | [r [Hr Hbad]]].
  - rewrite He. simpl. split; [reflexivity |].
    exists (PrintFailed e). now rewrite <- app_assoc.
  - rewrite Hr. destruct (status_code r =? 400)%Z eqn:Hstatus.
    + simpl. split; [reflexivity |].
      exists (PrintBadRequest (text r)). now rewrite <- app_assoc.
    + destruct Hbad as [H400 | [e He]].
      * apply Z.eqb_neq in Hstatus. contradiction.
      * rewrite He. simpl. split; [reflexivity |].
        exists (PrintFailed e). now rewrite <- app_assoc.
Qed.

Lemma query_failure_returns_None_witness :
  fst (query bad_request_env ex_namespaces "SELECT * WHERE {?s ?p ?o}" [])
  = Return None
  /\ fst (query unreachable_env ex_namespaces "SELECT * WHERE {?s ?p ?o}" [])
     = Return None.
Proof.
  split.
  - refine (proj1 (query_failure_returns_None bad_request_env ex_namespaces
                     "SELECT * WHERE {?s ?p ?o}" [] _)).
    right. eexists. split; [reflexivity |]. left. reflexivity.
  - refine (proj1 (query_failure_returns_None unreachable_env ex_namespaces
                     "SELECT * WHERE {?s ?p ?o}" [] _)).
    left. eexists. reflexivity.
Defined.

(** C10: when the response to the export query has the status 400,
    [serialize] returns [None], neither the text of the response nor the
    empty string, whatever the destination, and nothing is written. *)
Theorem serialize_bad_request_returns_None (env : environment)
  (namespaces : Py.dict string) (dest : destination) (tr : list event)
  (r : Response) :
  kb_query env
    (format_query namespaces
       "SELECT * WHERE { GRAPH <graph://main> { ?s ?p ?o } }") = Return r ->
  status_code r = 400%Z ->
  fst (serialize env namespaces dest tr) = Return None
  /\ fst (serialize env namespaces dest tr) <> Return (Some (text r))
  /\ fst (serialize env namespaces dest tr) <> Return (Some EmptyString)
  /\ filter is_write (snd (serialize env namespaces dest tr))
     = filter is_write tr.
Proof.
  intros Hr H400.
  assert (Hrun : serialize env namespaces dest tr
                 = (Return None,
                    (tr ++ [PrintQuery
                              (format_query namespaces
                                 "SELECT * WHERE { GRAPH <graph://main> { ?s ?p ?o } }");
                            PrintBadRequest (text r)])%list)).
  { unfold serialize, io_bind, emit, lift, io_ret. simpl.
    simpl in Hr. rewrite Hr, H400. simpl. now rewrite <- app_assoc. }
  rewrite Hrun. simpl. repeat split; try discriminate.
  now apply filter_is_write_prints.
Qed.

Lemma serialize_bad_request_returns_None_witness :
  fst (serialize bad_request_env ex_namespaces (DestStr "dump.ttl") [])
  = Return None
  /\ fst (serialize bad_request_env ex_namespaces (DestIO 0) []) = Return None
  /\ fst (serialize bad_request_env ex_namespaces (DestStr EmptyString) [])
     = Return None.
Proof.
  split; [| split].
  - exact (proj1 (serialize_bad_request_returns_None bad_request_env
                    ex_namespaces (DestStr "dump.ttl") [] _ eq_refl eq_refl)).
  - exact (proj1 (serialize_bad_request_returns_None bad_request_env
                    ex_namespaces (DestIO 0) [] _ eq_refl eq_refl)).
  - exact (proj1 (serialize_bad_request_returns_None bad_request_env
                    ex_namespaces (DestStr EmptyString) [] _ eq_refl eq_refl)).
Defined.

(** * Further properties of the module *)

(** ** The dictionary behind the registry *)

Section DictFacts.
Context {V : Type}.

Lemma get_None_keys (d : Py.dict V) (k : string) :
  Py.get d k = None <-> ~ In k (Py.keys d).
Proof.
  induction d as [| [k' v'] d IH]; simpl.
  - tauto.
  - destruct (String.eqb_spec k' k) as [-> | Hne].
    + split; [discriminate | intros H; elim H; now left].
    + rewrite IH. split.
      * intros H [Heq | Hin]; [now apply Hne | now apply H].
      * intros H Hin. apply H. now right.
Qed.

Lemma mem_false_keys (d : Py.dict V) (k : string) :
  Py.mem d k = false <-> ~ In k (Py.keys d).
Proof.
  rewrite <- get_None_keys. unfold Py.mem.
  destruct (Py.get d k); split; congruence.
Qed.

Lemma get_set_same (d : Py.dict V) (k : string) (v : V) :
  Py.get (Py.set d k v) k = Some v.
Proof.
  induction d as [| [k' v'] d IH]; simpl.
  - now rewrite String.eqb_refl.
  - destruct (String.eqb_spec k' k) as [-> | Hne]; simpl.
    + now rewrite String.eqb_refl.
    + destruct (String.eqb_spec k' k); [contradiction | exact IH].
Qed.

Lemma get_set_other (d : Py.dict V) (k k0 : string) (v : V) :
  k0 <> k -> Py.get (Py.set d k v) k0 = Py.get d k0.
Proof.
  intros Hne. induction d as [| [k' v'] d IH]; simpl.
  - destruct (String.eqb_spec k k0); [congruence | reflexivity].
  - destruct (String.eqb_spec k' k) as [-> | Hk]; simpl.
    + destruct (String.eqb_spec k k0); [congruence | reflexivity].
    + now rewrite IH.
Qed.

Lemma set_absent (d : Py.dict V) (k : string) (v : V) :
  Py.mem d k = false -> Py.set d k v = (d ++ [(k, v)])%list.
Proof.
  unfold Py.mem. induction d as [| [k' v'] d IH]; simpl.
  - reflexivity.
  - destruct (String.eqb_spec k' k); [discriminate |].
    intros H. now rewrite IH.
Qed.

Lemma keys_set_present (d : Py.dict V) (k : string) (v : V) :
  Py.mem d k = true -> Py.keys (Py.set d k v) = Py.keys d.
Proof.
  unfold Py.mem, Py.keys. induction d as [| [k' v'] d IH]; simpl.
  - discriminate.
  - destruct (String.eqb_spec k' k) as [-> | Hne]; simpl.
    + reflexivity.
    + intros H. now rewrite IH.
Qed.

Lemma get_del_other (d : Py.dict V) (k k0 : string) :
  k0 <> k -> Py.get (Py.del d k) k0 = Py.get d k0.
Proof.
  intros Hne. induction d as [| [k' v'] d IH]; simpl.
  - reflexivity.
  - destruct (String.eqb_spec k' k) as [-> | Hk]; simpl.
    + destruct (String.eqb_spec k k0); [congruence | reflexivity].
    + now rewrite IH.
Qed.

Lemma get_del_same (d : Py.dict V) (k : string) :
  NoDup (Py.keys d) -> Py.get (Py.del d k) k = None.
Proof.
  induction d as [| [k' v'] d IH]; simpl; intros Hnd.
  - reflexivity.
  - inversion Hnd as [| ? ? Hnotin Hrest]; subst.
    destruct (String.eqb_spec k' k) as [-> | Hk]; simpl.
    + now apply get_None_keys.
    + destruct (String.eqb_spec k' k); [contradiction | now apply IH].
Qed.

Lemma del_set_absent (d : Py.dict V) (k : string) (v : V) :
  Py.mem d k = false -> Py.del (Py.set d k v) k = d.
Proof.
  unfold Py.mem. induction d as [| [k' v'] d IH]; simpl.
  - now rewrite String.eqb_refl.
  - destruct (String.eqb_spec k' k) as [-> | Hk]; [discriminate |].
    simpl. destruct (String.eqb_spec k' k); [contradiction |].
    intros H. now rewrite IH.
Qed.

Lemma keys_del_subset (d : Py.dict V) (k k0 : string) :
  In k0 (Py.keys (Py.del d k)) -> In k0 (Py.keys d).
Proof.
  induction d as [| [k' v'] d IH]; simpl; [tauto |].
  destruct (String.eqb_spec k' k); simpl; tauto.
Qed.

Lemma NoDup_keys_del (d : Py.dict V) (k : string) :
  NoDup (Py.keys d) -> NoDup (Py.keys (Py.del d k)).
Proof.
  induction d as [| [k' v'] d IH]; simpl; intros Hnd; [constructor |].
  inversion Hnd as [| ? ? Hnotin Hrest]; subst.
  destruct (String.eqb_spec k' k); simpl; [assumption |].
  constructor; [| now apply IH].
  intros Hin. apply Hnotin. eapply keys_del_subset. eassumption.
Qed.

Lemma keys_set_subset (d : Py.dict V) (k k0 : string) (v : V) :
  In k0 (Py.keys (Py.set d k v)) -> k0 = k \/ In k0 (Py.keys d).
Proof.
  induction d as [| [k' v'] d IH]; simpl.
  - intros [H | []]; now left.
  - destruct (String.eqb_spec k' k) as [-> | Hk]; simpl; tauto.
Qed.

Lemma NoDup_keys_set (d : Py.dict V) (k : string) (v : V) :
  NoDup (Py.keys d) -> NoDup (Py.keys (Py.set d k v)).
Proof.
  induction d as [| [k' v'] d IH]; simpl; intros Hnd.
  - repeat constructor. simpl. tauto.
  - inversion Hnd as [| ? ? Hnotin Hrest]; subst.
    destruct (String.eqb_spec k' k) as [-> | Hk]; simpl.
    + now constructor.
    + constructor; [| now apply IH].
      intros Hin. apply keys_set_subset in Hin as [Heq | Hin]; congruence.
Qed.

End DictFacts.

(** ** The namespace registry *)

Lemma prefix_clause_app (prefix namespace query : string) :
  prefix_clause (prefix, namespace) ++ query
  = "PREFIX " ++ prefix ++ ": <" ++ namespace ++ "> " ++ query.
Proof.
  unfold prefix_clause. cbn [fst snd].
  now rewrite !string_app_assoc.
Qed.

Lemma NoDup_keys_init (base_iri : string) :
  NoDup (Py.keys (init base_iri)).
Proof.
  apply NoDup_keys_set. unfold DEFAULT_NAMESPACES. simpl.
  repeat (constructor; [simpl; intuition discriminate |]). constructor.
Qed.

Lemma NoDup_keys_bind (namespaces : Py.dict string) (prefix namespace : string) :
  NoDup (Py.keys namespaces) ->
  NoDup (Py.keys (bind namespaces prefix namespace)).
Proof.
  intros Hnd. unfold bind. destruct namespace.
  - destruct (Py.mem namespaces prefix); [now apply NoDup_keys_del | exact Hnd].
  - now apply NoDup_keys_set.
Qed.

Lemma NoDup_keys_binds (base_iri : string) (calls : list (string * string)) :
  NoDup (Py.keys (binds (init base_iri) calls)).
Proof.
  unfold binds. generalize (NoDup_keys_init base_iri).
  generalize (init base_iri) as ns.
  induction calls as [| [p u] calls IH]; intros ns Hnd; simpl.
  - exact Hnd.
  - apply IH. now apply NoDup_keys_bind.
Qed.

(** X1: at most one namespace per prefix: whatever the base IRI and whatever
    calls of [bind] follow the construction, no prefix occurs twice in the
    registry. *)
Theorem registry_keys_distinct (base_iri : string)
  (calls : list (string * string)) :
  NoDup (Py.keys (binds (init base_iri) calls)).
Proof. apply NoDup_keys_binds. Qed.

(** X2: the registry of a new adapter: the base IRI is under the empty prefix,
    also when it is the empty string, every default prefix keeps its
    namespace, and [format_query] puts the clause of the empty prefix in
    front of the clauses of the defaults. *)
Theorem init_registry (base_iri query : string) :
  Py.get (init base_iri) EmptyString = Some base_iri
  /\ Forall (fun item => Py.get (init base_iri) (fst item) = Some (snd item))
            DEFAULT_NAMESPACES
  /\ format_query (init base_iri) query
     = "PREFIX : <" ++ base_iri ++ "> "
       ++ format_query DEFAULT_NAMESPACES query.
Proof.
  split; [| split].
  - apply get_set_same.
  - unfold DEFAULT_NAMESPACES. repeat constructor.
  - unfold init. rewrite set_absent by reflexivity.
    rewrite format_query_snoc. apply (prefix_clause_app EmptyString).
Qed.

(** X3: [bind] with a namespace that is not empty: afterwards the prefix has
    that namespace and every other prefix has the namespace it had. *)
Theorem bind_sets_prefix (namespaces : Py.dict string)
  (prefix namespace : string) :
  namespace <> EmptyString ->
  Py.get (bind namespaces prefix namespace) prefix = Some namespace
  /\ forall other, other <> prefix ->
       Py.get (bind namespaces prefix namespace) other
       = Py.get namespaces other.
Proof.
  intros Hne. unfold bind. destruct namespace; [contradiction |].
  split.
  - apply get_set_same.
  - intros other Hother. now apply get_set_other.
Qed.

Lemma bind_sets_prefix_witness :
  Py.get (bind ex_namespaces "emmo" "https://w3id.org/emmo#") "emmo"
  = Some "https://w3id.org/emmo#"
  /\ Py.get (bind ex_namespaces "owl" "http://example.com/owl#") "owl"
     = Some "http://example.com/owl#".
Proof.
  split.
  - refine (proj1 (bind_sets_prefix ex_namespaces "emmo"
                     "https://w3id.org/emmo#" _)).
    discriminate.
  - refine (proj1 (bind_sets_prefix ex_namespaces "owl"
                     "http://example.com/owl#" _)).
    discriminate.
Defined.

Lemma bind_empty_NoDup (namespaces : Py.dict string) (prefix : string) :
  NoDup (Py.keys namespaces) ->
  Py.mem (bind namespaces prefix EmptyString) prefix = false
  /\ forall other, other <> prefix ->
       Py.get (bind namespaces prefix EmptyString) other
       = Py.get namespaces other.
Proof.
  intros Hnd. unfold bind. destruct (Py.mem namespaces prefix) eqn:Hmem.
  - split.
    + unfold Py.mem. now rewrite get_del_same.
    + intros other Hother. now apply get_del_other.
  - split; [exact Hmem | reflexivity].
Qed.

(** X4: [bind] with the empty namespace, in any state of an adapter (its
    construction followed by any calls of [bind]): afterwards the prefix is
    not in the registry, whether it was there or not, and every other prefix
    has the namespace it had. *)
Theorem bind_empty_removes_prefix (base_iri : string)
  (calls : list (string * string)) (prefix : string) :
  Py.mem (bind (binds (init base_iri) calls) prefix EmptyString) prefix
  = false
  /\ forall other, other <> prefix ->
       Py.get (bind (binds (init base_iri) calls) prefix EmptyString) other
       = Py.get (binds (init base_iri) calls) other.
Proof. apply bind_empty_NoDup, NoDup_keys_binds. Qed.

Lemma bind_empty_removes_prefix_witness :
  Py.get (bind (binds (init "http://ex.org/")
                  [("emmo", "https://w3id.org/emmo#")])
               "emmo" EmptyString) "owl"
  = Some "http://www.w3.org/2002/07/owl#".
Proof.
  refine (proj2 (bind_empty_removes_prefix "http://ex.org/"
                   [("emmo", "https://w3id.org/emmo#")] "emmo") "owl" _).
  discriminate.
Defined.

(** X5: binding a prefix that is not in the registry appends it, so its clause
    is the first one of every query formatted afterwards; the clauses that
    were there follow unchanged. *)
Theorem bind_new_prefix_clause_first (namespaces : Py.dict string)
  (prefix namespace query : string) :
  Py.mem namespaces prefix = false ->
  namespace <> EmptyString ->
  format_query (bind namespaces prefix namespace) query
  = "PREFIX " ++ prefix ++ ": <" ++ namespace ++ "> "
    ++ format_query namespaces query.
Proof.
  intros Hmem Hne. unfold bind. destruct namespace; [contradiction |].
  rewrite set_absent by exact Hmem. rewrite format_query_snoc.
  apply prefix_clause_app.
Qed.

Lemma bind_new_prefix_clause_first_witness :
  format_query (bind ex_namespaces "emmo" "https://w3id.org/emmo#") "ASK {}"
  = "PREFIX emmo: <https://w3id.org/emmo#> "
    ++ format_query ex_namespaces "ASK {}".
Proof.
  refine (bind_new_prefix_clause_first ex_namespaces "emmo"
            "https://w3id.org/emmo#" "ASK {}" eq_refl _).
  discriminate.
Defined.

(** X6: binding again a prefix that is in the registry keeps the place of the
    prefix in the iteration order, hence the order of the clauses. *)
Theorem bind_present_prefix_keeps_order (namespaces : Py.dict string)
  (prefix namespace : string) :
  Py.mem namespaces prefix = true ->
  namespace <> EmptyString ->
  Py.keys (bind namespaces prefix namespace) = Py.keys namespaces.
Proof.
  intros Hmem Hne. unfold bind. destruct namespace; [contradiction |].
  now apply keys_set_present.
Qed.

Lemma bind_present_prefix_keeps_order_witness :
  Py.keys (bind ex_namespaces "rdf" "http://example.com/rdf#")
  = Py.keys ex_namespaces.
Proof.
  refine (bind_present_prefix_keeps_order ex_namespaces "rdf"
            "http://example.com/rdf#" eq_refl _).
  discriminate.
Defined.

(** X7: binding a new prefix and unbinding it gives the registry back, entries
    and order. *)
Theorem bind_then_unbind (namespaces : Py.dict string)
  (prefix namespace : string) :
  Py.mem namespaces prefix = false ->
  namespace <> EmptyString ->
  bind (bind namespaces prefix namespace) prefix EmptyString = namespaces.
Proof.
  intros Hmem Hne. unfold bind. destruct namespace; [contradiction |].
  unfold Py.mem at 1. rewrite get_set_same.
  now apply del_set_absent.
Qed.

Lemma bind_then_unbind_witness :
  bind (bind ex_namespaces "emmo" "https://w3id.org/emmo#") "emmo" EmptyString
  = ex_namespaces.
Proof.
  refine (bind_then_unbind ex_namespaces "emmo" "https://w3id.org/emmo#"
            eq_refl _).
  discriminate.
Defined.

(** ** Comprehensions that may raise *)

Section MapM.
Context {A B : Type}.
Variable f : A -> result B.

Lemma mapM_Return_Forall2 (l : list A) (ys : list B) :
  mapM f l = Return ys <-> Forall2 (fun x y => f x = Return y) l ys.
Proof.
  revert ys. induction l as [| a l IH]; intros ys; simpl.
  - split.
    + intros H. injection H as <-. constructor.
    + intros H. inversion H. reflexivity.
  - split.
    + destruct (f a) as [b |] eqn:Hfa; simpl; [| discriminate].
      destruct (mapM f l) as [bs |] eqn:Hl; simpl; [| discriminate].
      intros H. injection H as <-. constructor; [exact Hfa | now apply IH].
    + intros H. inversion H as [| ? y ? ys' Hfa Hrest]; subst.
      rewrite Hfa. simpl. apply IH in Hrest. now rewrite Hrest.
Qed.

Lemma mapM_Raise_first (l : list A) (e : exn) :
  mapM f l = Raise e <->
  exists before x after ys,
    l = (before ++ x :: after)%list
    /\ mapM f before = Return ys
    /\ f x = Raise e.
Proof.
  induction l as [| a l IH]; simpl.
  - split; [discriminate |].
    intros (before & x & after & ys & Hl & _). now destruct before.
  - split.
    + destruct (f a) as [b |] eqn:Hfa; simpl.
      * destruct (mapM f l) as [bs |] eqn:Hl; simpl; [discriminate |].
        intros H. injection H as <-.
        destruct (proj1 IH eq_refl) as (before & x & after & ys & -> & Hb & Hx).
        exists (a :: before), x, after, (b :: ys). simpl.
        rewrite Hfa, Hb. auto.
      * intros H. injection H as <-.
        exists [], a, l, []. auto.
    + intros (before & x & after & ys & Hl & Hb & Hx).
      destruct before as [| a' before]; simpl in Hl;
        injection Hl as Ha Hl'; subst l; [subst x | subst a'].
      * now rewrite Hx.
      * simpl in Hb. destruct (f a) as [b |]; simpl in *; [| discriminate].
        destruct (mapM f before) as [bs |] eqn:Hbefore; [| discriminate].
        assert (Hrest : mapM f (before ++ x :: after) = Raise e).
        { apply IH. exists before, x, after, bs. auto. }
        now rewrite Hrest.
Qed.

Lemma mapM_Raise_In (l : list A) (e : exn) :
  mapM f l = Raise e -> exists x, In x l /\ f x = Raise e.
Proof.
  intros H. apply mapM_Raise_first in H as (before & x & after & ys & -> & _ & Hx).
  exists x. split; [| exact Hx]. apply in_or_app. right. now left.
Qed.

Lemma mapM_In_Raise (l : list A) (x : A) (e : exn) :
  In x l -> f x = Raise e -> exists e', mapM f l = Raise e'.
Proof.
  intros Hin Hx. destruct (mapM f l) as [ys |] eqn:Hl; [| eauto].
  apply mapM_Return_Forall2 in Hl.
  exfalso. revert ys Hl. induction l as [| a l IH]; intros ys Hl; [contradiction |].
  inversion Hl as [| ? y ? ys' Hfa Hrest]; subst.
  destruct Hin as [-> | Hin]; [congruence | eauto].
Qed.

Lemma mapM_length (l : list A) (ys : list B) :
  mapM f l = Return ys -> length ys = length l.
Proof.
  intros H. apply mapM_Return_Forall2 in H.
  induction H; simpl; congruence.
Qed.

End MapM.

(** ** Rendering of slots *)

Lemma startswith_exclusive (s : string) (c1 c2 : ascii) :
  c1 <> c2 ->
  Py.startswith s (String c1 EmptyString) = true ->
  Py.startswith s (String c2 EmptyString) = false.
Proof.
  intros Hne H1. apply startswith_char in H1 as [rest ->].
  unfold Py.startswith. simpl.
  destruct (ascii_dec c2 c1); [congruence | reflexivity].
Qed.

Lemma startswith_lt (rest : string) :
  Py.startswith (String "<" rest) "<" = true.
Proof. destruct rest; reflexivity. Qed.

Lemma getitem_mem_false {V : Type} (d : Py.dict V) (k : string) :
  Py.mem d k = false -> getitem d k = Raise (KeyError k).
Proof. unfold Py.mem, getitem. now destruct (Py.get d k). Qed.

Lemma getitem_mem_true {V : Type} (d : Py.dict V) (k : string) :
  Py.mem d k = true -> exists v, getitem d k = Return v.
Proof. unfold Py.mem, getitem. destruct (Py.get d k); [eauto | discriminate]. Qed.

Lemma colon_not_lt : ":"%char <> "<"%char.
Proof. discriminate. Qed.

Lemma colon_not_quote : ":"%char <> ascii_of_nat 34.
Proof. discriminate. Qed.

Lemma triples_slot_Raise (namespaces : Py.dict string)
  (nv : string * option value) (e : exn) :
  triples_slot namespaces nv = Raise e ->
  e = KeyError EmptyString
  /\ Py.mem namespaces EmptyString = false
  /\ shorthand (snd nv) = true.
Proof.
  destruct nv as [name [v |]]; simpl; [| discriminate].
  destruct (Py.startswith (str_of v) "<"); [discriminate |].
  destruct (Py.startswith (str_of v) ":"); [| discriminate].
  unfold getitem, Py.mem.
  destruct (Py.get namespaces EmptyString); simpl; [discriminate |].
  intros H. injection H as <-. auto.
Qed.

Lemma triples_slot_unbound_prefix (namespaces : Py.dict string)
  (name : string) (slot : option value) :
  Py.mem namespaces EmptyString = false ->
  shorthand slot = true ->
  triples_slot namespaces (name, slot) = Raise (KeyError EmptyString).
Proof.
  intros Hmem Hshort. destruct slot as [v |]; [| discriminate].
  simpl in *.
  rewrite (startswith_exclusive _ _ _ colon_not_lt Hshort), Hshort.
  now rewrite (getitem_mem_false _ _ Hmem).
Qed.

(** X8: writing a pattern for [triples] with the shorthand while the empty
    prefix is unbound is the one way to make the compilation of the match
    query fail: it raises the [KeyError] of the registry lookup exactly
    then, and it raises nothing else. *)
Theorem triples_query_raises_iff (namespaces : Py.dict string) (t : Triple) :
  (triples_query namespaces t = Raise (KeyError EmptyString)
   <-> Py.mem namespaces EmptyString = false
       /\ existsb shorthand (tuple_of t) = true)
  /\ (forall e, triples_query namespaces t = Raise e ->
                e = KeyError EmptyString).
Proof.
  assert (Hraise : forall e, triples_query namespaces t = Raise e ->
            e = KeyError EmptyString
            /\ Py.mem namespaces EmptyString = false
            /\ existsb shorthand (tuple_of t) = true).
  { intros e H. unfold triples_query, whereSpec in H.
    destruct (mapM (triples_slot namespaces) (zip_spo t)) as [slots |] eqn:Hm;
      simpl in H; [discriminate |].
    injection H as ->.
    apply mapM_Raise_In in Hm as (nv & Hin & Hnv).
    apply triples_slot_Raise in Hnv as (-> & Hmem & Hshort).
    repeat split; [exact Hmem |].
    destruct t as [[s p] o]. simpl in Hin |- *.
    destruct Hin as [<- | [<- | [<- | []]]]; simpl in Hshort; rewrite Hshort;
      now rewrite ?orb_true_r. }
  split; [split |].
  - intros H. now apply Hraise in H.
  - intros [Hmem Hex].
    assert (Hsome : exists e, mapM (triples_slot namespaces) (zip_spo t)
                              = Raise e).
    { destruct t as [[s p] o]. simpl in Hex.
      apply orb_true_iff in Hex as [Hs | Hex];
        [| apply orb_true_iff in Hex as [Hp | Hex];
           [| apply orb_true_iff in Hex as [Ho | Hex]; [| discriminate]]].
      - apply (mapM_In_Raise _ _ ("s", s) (KeyError EmptyString));
          [simpl; auto | now apply triples_slot_unbound_prefix].
      - apply (mapM_In_Raise _ _ ("p", p) (KeyError EmptyString));
          [simpl; auto | now apply triples_slot_unbound_prefix].
      - apply (mapM_In_Raise _ _ ("o", o) (KeyError EmptyString));
          [simpl; auto | now apply triples_slot_unbound_prefix]. }
    destruct Hsome as [e He].
    assert (Hq : triples_query namespaces t = Raise e).
    { unfold triples_query, whereSpec. now rewrite He. }
    rewrite Hq. f_equal. now apply Hraise in Hq.
  - intros e H. now apply Hraise in H.
Qed.

Lemma add_triples_value_cases (n3 : Literal -> string)
  (namespaces : Py.dict string) (slot : option value) :
  match slot with
  | None => add_triples_value n3 namespaces slot
            = Raise (AttributeError "startswith")
  | Some _ => exists s, add_triples_value n3 namespaces slot = Return s
  end.
Proof.
  destruct slot as [[s | l] |]; simpl; [| eauto | reflexivity].
  destruct (Py.startswith s "<" || Py.startswith s Py.dquote); [eauto |].
  destruct (Py.mem namespaces EmptyString) eqn:Hmem; simpl.
  - destruct (Py.startswith s ":"); [| eauto].
    destruct (getitem_mem_true _ _ Hmem) as [base ->]. simpl. eauto.
  - destruct (Py.startswith s ":"); eauto.
Qed.

Lemma add_triples_triple_cases (n3 : Literal -> string)
  (namespaces : Py.dict string) (t : Triple) :
  if fully_bound t
  then exists s, add_triples_triple n3 namespaces t = Return s
  else add_triples_triple n3 namespaces t
       = Raise (AttributeError "startswith").
Proof.
  destruct t as [[s p] o]. unfold add_triples_triple, fully_bound. simpl.
  pose proof (add_triples_value_cases n3 namespaces s) as Hs.
  pose proof (add_triples_value_cases n3 namespaces p) as Hp.
  pose proof (add_triples_value_cases n3 namespaces o) as Ho.
  destruct s as [vs |]; [destruct Hs as [ts Hs] |]; rewrite Hs; simpl;
    [| reflexivity].
  destruct p as [vp |]; [destruct Hp as [tp Hp] |]; rewrite Hp; simpl;
    [| reflexivity].
  destruct o as [vo |]; [destruct Ho as [to Ho] |]; rewrite Ho; simpl;
    [eauto | reflexivity].
Qed.

(** X9: [add_triples] compiles its update exactly when every triple is fully
    bound, whatever the registry holds (the shorthand never fails here); a
    triple with an unbound slot makes it raise the [AttributeError] of the
    missing [startswith], and nothing else is ever raised.  The empty
    sequence compiles to an update with an empty block. *)
Theorem add_triples_cmd_returns_iff (n3 : Literal -> string)
  (namespaces : Py.dict string) (triples : list Triple) :
  ((exists cmd, add_triples_cmd n3 namespaces triples = Return cmd)
   <-> forallb fully_bound triples = true)
  /\ (forall e, add_triples_cmd n3 namespaces triples = Raise e ->
                e = AttributeError "startswith")
  /\ add_triples_cmd n3 namespaces []
     = Return "INSERT DATA { GRAPH <graph://main> {  } }".
Proof.
  assert (Hm : if forallb fully_bound triples
               then exists specs,
                 mapM (add_triples_triple n3 namespaces) triples = Return specs
               else mapM (add_triples_triple n3 namespaces) triples
                    = Raise (AttributeError "startswith")).
  { induction triples as [| t triples IH]; simpl; [eauto |].
    pose proof (add_triples_triple_cases n3 namespaces t) as Ht.
    destruct (fully_bound t); simpl.
    - destruct Ht as [s ->]. simpl.
      destruct (forallb fully_bound triples).
      + destruct IH as [specs ->]. simpl. eauto.
      + now rewrite IH.
    - now rewrite Ht. }
  unfold add_triples_cmd. split; [split | split].
  - intros [cmd Hcmd]. destruct (forallb fully_bound triples); [reflexivity |].
    rewrite Hm in Hcmd. discriminate.
  - intros Hall. rewrite Hall in Hm. destruct Hm as [specs ->]. simpl. eauto.
  - intros e He. destruct (forallb fully_bound triples).
    + destruct Hm as [specs Hs]. rewrite Hs in He. discriminate.
    + rewrite Hm in He. simpl in He. congruence.
  - reflexivity.
Qed.

Section RemoveFacts.
Variable n3 : Literal -> string.

Lemma remove_slot_Raise (namespaces : Py.dict string)
  (nv : string * option value) (e : exn) :
  remove_slot n3 namespaces nv = Raise e ->
  e = KeyError EmptyString
  /\ Py.mem namespaces EmptyString = false
  /\ shorthand_str (snd nv) = true.
Proof.
  destruct nv as [name [[s | l] |]]; simpl; [| discriminate | discriminate].
  destruct (Py.startswith s "<" || Py.startswith s Py.dquote); [discriminate |].
  destruct (Py.startswith s ":"); [| discriminate].
  unfold getitem, Py.mem.
  destruct (Py.get namespaces EmptyString); simpl; [discriminate |].
  intros H. injection H as <-. auto.
Qed.

Lemma remove_slot_unbound_prefix (namespaces : Py.dict string)
  (name : string) (slot : option value) :
  Py.mem namespaces EmptyString = false ->
  shorthand_str slot = true ->
  remove_slot n3 namespaces (name, slot) = Raise (KeyError EmptyString).
Proof.
  intros Hmem Hshort. destruct slot as [[s | l] |]; try discriminate.
  simpl in *.
  rewrite (startswith_exclusive _ _ _ colon_not_lt Hshort).
  unfold Py.dquote.
  rewrite (startswith_exclusive _ _ _ colon_not_quote Hshort), Hshort.
  simpl. now rewrite (getitem_mem_false _ _ Hmem).
Qed.

(** X10: [remove] fails to compile its update exactly when the empty prefix is
    unbound and a slot is a plain string written with the shorthand; the
    exception is the [KeyError] of the registry lookup, and nothing else is
    raised (an unbound slot is a variable, a [Literal] is rendered by
    [n3]). *)
Theorem remove_cmd_raises_iff (namespaces : Py.dict string) (t : Triple) :
  (remove_cmd n3 namespaces t = Raise (KeyError EmptyString)
   <-> Py.mem namespaces EmptyString = false
       /\ existsb shorthand_str (tuple_of t) = true)
  /\ (forall e, remove_cmd n3 namespaces t = Raise e ->
                e = KeyError EmptyString).
Proof.
  assert (Hraise : forall e, remove_cmd n3 namespaces t = Raise e ->
            e = KeyError EmptyString
            /\ Py.mem namespaces EmptyString = false
            /\ existsb shorthand_str (tuple_of t) = true).
  { intros e H. unfold remove_cmd in H.
    destruct (mapM (remove_slot n3 namespaces) (zip_spo t)) as [slots |] eqn:Hm;
      simpl in H; [discriminate |].
    injection H as ->.
    apply mapM_Raise_In in Hm as (nv & Hin & Hnv).
    apply remove_slot_Raise in Hnv as (-> & Hmem & Hshort).
    repeat split; [exact Hmem |].
    destruct t as [[s p] o]. simpl in Hin |- *.
    destruct Hin as [<- | [<- | [<- | []]]]; simpl in Hshort; rewrite Hshort;
      now rewrite ?orb_true_r. }
  split; [split |].
  - intros H. now apply Hraise in H.
  - intros [Hmem Hex].
    assert (Hsome : exists e, mapM (remove_slot n3 namespaces) (zip_spo t)
                              = Raise e).
    { destruct t as [[s p] o]. simpl in Hex.
      apply orb_true_iff in Hex as [Hs | Hex];
        [| apply orb_true_iff in Hex as [Hp | Hex];
           [| apply orb_true_iff in Hex as [Ho | Hex]; [| discriminate]]].
      - apply (mapM_In_Raise _ _ ("s", s) (KeyError EmptyString));
          [simpl; auto | now apply remove_slot_unbound_prefix].
      - apply (mapM_In_Raise _ _ ("p", p) (KeyError EmptyString));
          [simpl; auto | now apply remove_slot_unbound_prefix].
      - apply (mapM_In_Raise _ _ ("o", o) (KeyError EmptyString));
          [simpl; auto | now apply remove_slot_unbound_prefix]. }
    destruct Hsome as [e He].
    assert (Hq : remove_cmd n3 namespaces t = Raise e).
    { unfold remove_cmd. now rewrite He. }
    rewrite Hq. f_equal. now apply Hraise in Hq.
  - intros e H. now apply Hraise in H.
Qed.

Lemma remove_slot_unquoted (namespaces : Py.dict string) (name : string)
  (slot : option value) :
  unquoted_str slot = true ->
  remove_slot n3 namespaces (name, slot)
  = triples_slot namespaces (name, slot).
Proof.
  destruct slot as [[s | l] |]; simpl; [| discriminate | reflexivity].
  intros Hq. apply negb_true_iff in Hq. rewrite Hq, orb_false_r.
  reflexivity.
Qed.

(** X11: for a pattern whose bound slots are plain strings without a leading
    quote, the block of the DELETE WHERE update of [remove] is the WHERE
    clause that [triples] compiles for the same pattern: [remove] deletes
    what [triples] matches, and fails when it fails. *)
Theorem remove_cmd_matches_whereSpec (namespaces : Py.dict string)
  (t : Triple) :
  forallb unquoted_str (tuple_of t) = true ->
  remove_cmd n3 namespaces t
  = (spec <- whereSpec namespaces t ;;
     Return ("DELETE WHERE { GRAPH <graph://main> { " ++ spec ++ " } }")).
Proof.
  destruct t as [[s p] o]. simpl. intros H.
  apply andb_true_iff in H as [Hs H].
  apply andb_true_iff in H as [Hp H].
  apply andb_true_iff in H as [Ho _].
  assert (Hmap : mapM (remove_slot n3 namespaces) (zip_spo (s, p, o))
                 = mapM (triples_slot namespaces) (zip_spo (s, p, o))).
  { unfold zip_spo. cbn [combine mapM].
    rewrite (remove_slot_unquoted namespaces "s" s Hs).
    rewrite (remove_slot_unquoted namespaces "p" p Hp).
    rewrite (remove_slot_unquoted namespaces "o" o Ho).
    reflexivity. }
  unfold remove_cmd, whereSpec. rewrite Hmap.
  destruct (mapM (triples_slot namespaces) (zip_spo (s, p, o))); reflexivity.
Qed.

Lemma remove_slot_add_triples_value (namespaces : Py.dict string)
  (name : string) (v : value) :
  Py.mem namespaces EmptyString = true ->
  remove_slot n3 namespaces (name, Some v)
  = add_triples_value n3 namespaces (Some v).
Proof.
  intros Hmem. destruct v as [s | l]; simpl; [| reflexivity].
  rewrite Hmem. simpl.
  destruct (Py.startswith s "<" || Py.startswith s Py.dquote); [reflexivity |].
  destruct (Py.startswith s ":"); reflexivity.
Qed.

(** X12: with the empty prefix bound, [add_triples] and [remove] write a fully
    bound triple with the same text: the triple that the INSERT DATA update
    adds, followed by its full stop, is the pattern of the DELETE WHERE
    update for that triple. *)
Theorem add_triples_remove_same_text (namespaces : Py.dict string)
  (t : Triple) :
  fully_bound t = true ->
  Py.mem namespaces EmptyString = true ->
  exists body,
    add_triples_cmd n3 namespaces [t]
    = Return ("INSERT DATA { GRAPH <graph://main> { " ++ body ++ " . } }")
    /\ remove_cmd n3 namespaces t
       = Return ("DELETE WHERE { GRAPH <graph://main> { " ++ body ++ " } }").
Proof.
  destruct t as [[[vs |] [vp |]] [vo |]]; try discriminate.
  intros _ Hmem.
  unfold add_triples_cmd, add_triples_triple, remove_cmd, zip_spo, tuple_of.
  cbn [combine mapM].
  rewrite !(remove_slot_add_triples_value namespaces _ _ Hmem).
  destruct (add_triples_value_cases n3 namespaces (Some vs)) as [ts ->].
  destruct (add_triples_value_cases n3 namespaces (Some vp)) as [tp ->].
  destruct (add_triples_value_cases n3 namespaces (Some vo)) as [to ->].
  simpl. exists (ts ++ " " ++ tp ++ " " ++ to). split; [| reflexivity].
  rewrite !string_app_assoc. simpl. rewrite !string_app_assoc. reflexivity.
Qed.

(** X13: rendering a plain string for [add_triples] and rendering the result
    again changes nothing more: a value is delimited at most once. *)
Theorem add_triples_value_idempotent (namespaces : Py.dict string)
  (s rendered : string) :
  add_triples_value n3 namespaces (Some (Str s)) = Return rendered ->
  add_triples_value n3 namespaces (Some (Str rendered)) = Return rendered.
Proof.
  simpl.
  destruct (Py.startswith s "<" || Py.startswith s Py.dquote) eqn:Hdelim.
  - intros H. injection H as <-. now rewrite Hdelim.
  - destruct (Py.mem namespaces EmptyString) eqn:Hmem; simpl.
    + destruct (Py.startswith s ":") eqn:Hcolon.
      * destruct (getitem_mem_true _ _ Hmem) as [base ->]. simpl.
        intros H. injection H as <-. now rewrite startswith_lt.
      * intros H. injection H as <-. now rewrite startswith_lt.
    + destruct (Py.startswith s ":") eqn:Hcolon.
      * intros H. injection H as <-. now rewrite Hdelim, Hcolon.
      * intros H. injection H as <-. now rewrite startswith_lt.
Qed.

End RemoveFacts.

Lemma remove_cmd_matches_whereSpec_witness :
  remove_cmd (fun l => lit_value l) ex_namespaces
    (None, Some (Str ":knows"), Some (Str "http://ex.org/bob"))
  = Return ("DELETE WHERE { GRAPH <graph://main> { "
            ++ "?s <http://ex.org/knows> <http://ex.org/bob>" ++ " } }").
Proof.
  exact (remove_cmd_matches_whereSpec (fun l => lit_value l) ex_namespaces
           (None, Some (Str ":knows"), Some (Str "http://ex.org/bob"))
           eq_refl).
Defined.

Lemma add_triples_remove_same_text_witness :
  exists body,
    add_triples_cmd (fun l => lit_value l) ex_namespaces
      [(Some (Str ":alice"), Some (Str ":knows"), Some (Str quoted_c))]
    = Return ("INSERT DATA { GRAPH <graph://main> { " ++ body ++ " . } }")
    /\ remove_cmd (fun l => lit_value l) ex_namespaces
         (Some (Str ":alice"), Some (Str ":knows"), Some (Str quoted_c))
       = Return ("DELETE WHERE { GRAPH <graph://main> { " ++ body ++ " } }").
Proof.
  exact (add_triples_remove_same_text (fun l => lit_value l) ex_namespaces
           (Some (Str ":alice"), Some (Str ":knows"), Some (Str quoted_c))
           eq_refl eq_refl).
Defined.

Lemma add_triples_value_idempotent_witness :
  add_triples_value (fun l => lit_value l) ex_namespaces
    (Some (Str "<http://ex.org/alice>"))
  = Return "<http://ex.org/alice>".
Proof.
  exact (add_triples_value_idempotent (fun l => lit_value l) ex_namespaces
           ":alice" "<http://ex.org/alice>" eq_refl).
Defined.

(** ** The WHERE clause and the projection *)

Lemma lt_not_question : "<"%char <> "?"%char.
Proof. discriminate. Qed.

Lemma triples_slot_is_variable (namespaces : Py.dict string) (name : string)
  (slot : option value) (x : string) :
  triples_slot namespaces (name, slot) = Return x ->
  (slot = None /\ x = "?" ++ name)
  \/ (exists v, slot = Some v /\ is_variable x = false).
Proof.
  destruct slot as [v |]; simpl.
  - intros H. right. exists v. split; [reflexivity |].
    unfold is_variable.
    apply (startswith_exclusive _ _ _ lt_not_question).
    destruct (Py.startswith (str_of v) "<") eqn:Hlt.
    + now injection H as <-.
    + destruct (Py.startswith (str_of v) ":").
      * destruct (getitem namespaces EmptyString); simpl in H; [| discriminate].
        injection H as <-. apply startswith_lt.
      * injection H as <-. apply startswith_lt.
  - intros H. injection H as <-. now left.
Qed.

(** X14: the WHERE clause of [triples] is three slots joined with single spaces,
    and the slots that are variables are, in order, the variables that the
    SELECT clause projects (no variable at all when the projection is
    [*]). *)
Theorem whereSpec_variables_projected (namespaces : Py.dict string)
  (t : Triple) (spec : string) :
  whereSpec namespaces t = Return spec ->
  exists slots,
    spec = Py.join " " slots
    /\ length slots = 3
    /\ filter is_variable slots
       = (if (unbound_count t =? 0)%nat then [] else variables t).
Proof.
  destruct t as [[s p] o]. unfold whereSpec, zip_spo. cbn [combine mapM].
  destruct (triples_slot namespaces ("s", s)) as [ts |] eqn:Hs;
    cbn [rbind]; [| discriminate].
  destruct (triples_slot namespaces ("p", p)) as [tp |] eqn:Hp;
    cbn [rbind]; [| discriminate].
  destruct (triples_slot namespaces ("o", o)) as [to |] eqn:Ho;
    cbn [rbind]; [| discriminate].
  intros H. injection H as <-.
  exists [ts; tp; to]. split; [reflexivity | split; [reflexivity |]].
  apply triples_slot_is_variable in Hs, Hp, Ho.
  destruct Hs as [[-> ->] | (vs & -> & Hs)],
           Hp as [[-> ->] | (vp & -> & Hp)],
           Ho as [[-> ->] | (vo & -> & Ho)];
    cbn [filter]; rewrite ?Hs, ?Hp, ?Ho; reflexivity.
Qed.

Lemma whereSpec_variables_projected_witness :
  exists slots,
    "?s <http://ex.org/knows> ?o" = Py.join " " slots
    /\ length slots = 3
    /\ filter is_variable slots = ["?s"; "?o"].
Proof.
  exact (whereSpec_variables_projected ex_namespaces
           (None, Some (Str ":knows"), None)
           "?s <http://ex.org/knows> ?o" eq_refl).
Defined.

(** ** More on the decoder *)


(** X16: decoding is stable: when an entry is decoded to a plain string (a URI
    or a blank node), the same entry carrying that string as its value is
    decoded to the same string. *)
Theorem convert_json_entrydict_stable (namespaces : Py.dict string)
  (e : entrydict) (s : string) :
  convert_json_entrydict namespaces e = Return (Str s) ->
  convert_json_entrydict namespaces (with_value e s) = Return (Str s).
Proof.
  unfold convert_json_entrydict, with_value. simpl.
  destruct (entry_type e =? "uri")%string.
  - destruct (Py.startswith (entry_value e) ":") eqn:Hcolon.
    + destruct (getitem namespaces EmptyString) as [base |]; simpl;
        [| discriminate].
      intros H. injection H as <-.
      match goal with
      | |- context [Py.startswith ?x ":"] =>
          rewrite (startswith_exclusive x _ _ (not_eq_sym colon_not_lt)
                     (startswith_lt _))
      end.
      reflexivity.
    + intros H. injection H as <-. now rewrite Hcolon.
  - destruct (entry_type e =? "literal")%string; [discriminate |].
    destruct (entry_type e =? "bnode")%string; [| discriminate].
    destruct (Py.startswith (entry_value e) "_:") eqn:Hpre.
    + intros H. injection H as <-. now rewrite Hpre.
    + intros H. injection H as <-.
      change (Py.startswith (String "_" (String ":" (entry_value e))) "_:")
        with (Py.startswith ("_:" ++ entry_value e) "_:").
      now rewrite startswith_blank.
Qed.

Lemma convert_json_entrydict_stable_witness :
  convert_json_entrydict ex_namespaces
    (mkEntry "bnode" "_:b0" None None) = Return (Str "_:b0")
  /\ convert_json_entrydict ex_namespaces
       (mkEntry "uri" "<http://ex.org/Foo>" None None)
     = Return (Str "<http://ex.org/Foo>").
Proof.
  split.
  - exact (convert_json_entrydict_stable ex_namespaces
             (mkEntry "bnode" "b0" None None) "_:b0" eq_refl).
  - exact (convert_json_entrydict_stable ex_namespaces
             (mkEntry "uri" ":Foo" None None) "<http://ex.org/Foo>" eq_refl).
Defined.

(** ** The rows of [query] *)

Lemma decode_column_iff (namespaces : Py.dict string) (b : binding)
  (var : string) (v : value) :
  (e <- getitem b var ;; convert_json_entrydict namespaces e) = Return v
  <-> exists e, Py.get b var = Some e
                /\ convert_json_entrydict namespaces e = Return v.
Proof.
  unfold getitem. destruct (Py.get b var) as [e |]; simpl.
  - split; [eauto |]. intros (e' & He & Hv). now injection He as ->.
  - split; [discriminate |]. intros (e' & He & _). discriminate.
Qed.

(** X17: one row of [query]: it is decoded when every variable of [head.vars] is
    a key of the binding and its entry is decoded, and then it has one
    column per variable, in the order of [head.vars], whatever the order of
    the keys in the binding. *)
Theorem decode_binding_row_columns (namespaces : Py.dict string)
  (queryVars : list string) (b : binding) (row : list value) :
  decode_binding_row namespaces queryVars b = Return row
  <-> Forall2 (fun var v =>
                 exists e, Py.get b var = Some e
                           /\ convert_json_entrydict namespaces e = Return v)
              queryVars row.
Proof.
  unfold decode_binding_row. rewrite mapM_Return_Forall2.
  split; apply Forall2_impl; intros var v; apply decode_column_iff.
Qed.

Lemma query_on_response (env : environment) (namespaces : Py.dict string)
  (query_object : string) (tr : list event) (r : Response)
  (queryVars : list string) (queryBindings : list binding) :
  kb_query env (format_query namespaces query_object) = Return r ->
  status_code r <> 400%Z ->
  json r = Return (mkJson (Some queryVars) (Some queryBindings)) ->
  query env namespaces query_object tr
  = match mapM (decode_binding_row namespaces queryVars) queryBindings with
    | Return triplesRes =>
        (Return (Some triplesRes),
         (tr ++ [PrintExecuting query_object; PrintResult triplesRes])%list)
    | Raise e => (Raise e, (tr ++ [PrintExecuting query_object])%list)
    end.
Proof.
  intros Hr Hstatus Hjson.
  unfold query, io_bind, try_except, emit, lift, io_ret. simpl.
  rewrite Hr. apply Z.eqb_neq in Hstatus. rewrite Hstatus, Hjson. simpl.
  destruct (mapM (decode_binding_row namespaces queryVars) queryBindings);
    [| reflexivity].
  now rewrite <- app_assoc.
Qed.

(** X18: [query] on a response that is not a bad request and carries the
    variables and the bindings: the value returned is never [None] (no
    binding gives the empty list), and it is the list [rows] exactly when
    [rows] has one row per binding, in order, each with the columns of
    [head.vars] decoded from that binding. *)
Theorem query_returns_rows (env : environment) (namespaces : Py.dict string)
  (query_object : string) (tr : list event) (r : Response)
  (queryVars : list string) (queryBindings : list binding) :
  kb_query env (format_query namespaces query_object) = Return r ->
  status_code r <> 400%Z ->
  json r = Return (mkJson (Some queryVars) (Some queryBindings)) ->
  fst (query env namespaces query_object tr) <> Return None
  /\ forall triplesRes,
       fst (query env namespaces query_object tr) = Return (Some triplesRes)
       <-> Forall2 (fun b row =>
                      decode_binding_row namespaces queryVars b = Return row)
                   queryBindings triplesRes.
Proof.
  intros Hr Hstatus Hjson.
  rewrite (query_on_response _ _ _ _ _ _ _ Hr Hstatus Hjson).
  destruct (mapM (decode_binding_row namespaces queryVars) queryBindings)
    as [rows0 |] eqn:Hm; simpl.
  - split; [discriminate |]. intros triplesRes.
    rewrite <- mapM_Return_Forall2, Hm.
    split; intros H; injection H as ->; reflexivity.
  - split; [discriminate |]. intros triplesRes.
    rewrite <- mapM_Return_Forall2, Hm. split; discriminate.
Qed.

Lemma query_returns_rows_witness :
  fst (query one_row_env ex_namespaces "SELECT ?s ?o WHERE {?s ?p ?o}" [])
  = Return (Some [[Str "http://ex.org/a"; Str "_:b0"]]).
Proof.
  refine (proj2 (proj2 (query_returns_rows one_row_env ex_namespaces
                          "SELECT ?s ?o WHERE {?s ?p ?o}" [] _ _ _
                          eq_refl _ eq_refl) _) _).
  - discriminate.
  - repeat constructor.
Defined.

(** X19: the protected block of [query] ends before the rows are decoded: when a
    binding lacks one of the variables of [head.vars], as a row that leaves
    an OPTIONAL variable unbound does, [query] raises instead of returning,
    and the line with the result is not printed. *)
Theorem query_unbound_variable_raises (env : environment)
  (namespaces : Py.dict string) (query_object : string) (tr : list event)
  (r : Response) (queryVars : list string) (queryBindings : list binding)
  (b : binding) (var : string) :
  kb_query env (format_query namespaces query_object) = Return r ->
  status_code r <> 400%Z ->
  json r = Return (mkJson (Some queryVars) (Some queryBindings)) ->
  In b queryBindings ->
  In var queryVars ->
  Py.mem b var = false ->
  exists e,
    query env namespaces query_object tr
    = (Raise e, (tr ++ [PrintExecuting query_object])%list).
Proof.
  intros Hr Hstatus Hjson Hb Hvar Hmem.
  rewrite (query_on_response _ _ _ _ _ _ _ Hr Hstatus Hjson).
  assert (Hrow : exists e, decode_binding_row namespaces queryVars b = Raise e).
  { unfold decode_binding_row.
    apply (mapM_In_Raise _ _ var (KeyError var)); [exact Hvar |].
    now rewrite (getitem_mem_false _ _ Hmem). }
  destruct Hrow as [e0 Hrow].
  destruct (mapM_In_Raise _ _ _ _ Hb Hrow) as [e He].
  rewrite He. now exists e.
Qed.

Lemma query_unbound_variable_raises_witness :
  exists e,
    query optional_row_env ex_namespaces "SELECT ?s ?o WHERE {?s ?p ?o}" []
    = (Raise e, [PrintExecuting "SELECT ?s ?o WHERE {?s ?p ?o}"]).
Proof.
  refine (query_unbound_variable_raises optional_row_env ex_namespaces
            "SELECT ?s ?o WHERE {?s ?p ?o}" [] _ _ _
            [("s", mkEntry "uri" "http://ex.org/b" None None)] "o"
            eq_refl _ eq_refl _ _ eq_refl).
  - discriminate.
  - simpl. auto.
  - simpl. auto.
Defined.

(** ** [serialize] on a response that is not a bad request *)

Lemma serialize_on_response (env : environment) (namespaces : Py.dict string)
  (dest : destination) (tr : list event) (r : Response) :
  kb_query env (serialize_query namespaces) = Return r ->
  status_code r <> 400%Z ->
  serialize env namespaces dest tr
  = if falsy dest
    then (Return (Some (text r)),
          (tr ++ [PrintQuery (serialize_query namespaces)])%list)
    else match write_fault env dest with
         | Some e =>
             (Raise e, (tr ++ [PrintQuery (serialize_query namespaces)])%list)
         | None =>
             (Return (Some EmptyString),
              (tr ++ [PrintQuery (serialize_query namespaces);
                      write_event dest (text r)])%list)
         end.
Proof.
  intros Hr Hstatus. apply Z.eqb_neq in Hstatus.
  unfold serialize, serialize_query, io_bind, emit, lift, io_ret in *.
  simpl in *. rewrite Hr, Hstatus.
  destruct (falsy dest) eqn:Hfalsy; [reflexivity |].
  unfold write_destination, lift, emit.
  destruct (write_fault env dest); [reflexivity |].
  destruct dest; simpl; now rewrite <- app_assoc.
Qed.

(** X20: without a destination, [serialize] returns the text of the response and
    writes nothing; the status is only compared with 400, so the body of any
    other response, a server error included, is returned as the
    serialisation. *)
Theorem serialize_returns_text (env : environment)
  (namespaces : Py.dict string) (tr : list event) (r : Response) :
  kb_query env (serialize_query namespaces) = Return r ->
  status_code r <> 400%Z ->
  fst (serialize env namespaces (DestStr EmptyString) tr)
  = Return (Some (text r))
  /\ filter is_write (snd (serialize env namespaces (DestStr EmptyString) tr))
     = filter is_write tr.
Proof.
  intros Hr Hstatus.
  rewrite (serialize_on_response _ _ _ _ _ Hr Hstatus). simpl.
  split; [reflexivity |]. now apply filter_is_write_prints.
Qed.

Lemma serialize_returns_text_witness :
  fst (serialize server_error_env ex_namespaces (DestStr EmptyString) [])
  = Return (Some "Internal Server Error").
Proof.
  refine (proj1 (serialize_returns_text server_error_env ex_namespaces []
                   _ eq_refl _)).
  discriminate.
Defined.

(** X21: with a destination, a file name or a file object, that can be written,
    [serialize] returns the empty string and writes the text of the
    response to that destination, once, after whatever was written
    before. *)
Theorem serialize_writes_destination (env : environment)
  (namespaces : Py.dict string) (dest : destination) (tr : list event)
  (r : Response) :
  kb_query env (serialize_query namespaces) = Return r ->
  status_code r <> 400%Z ->
  falsy dest = false ->
  write_fault env dest = None ->
  fst (serialize env namespaces dest tr) = Return (Some EmptyString)
  /\ filter is_write (snd (serialize env namespaces dest tr))
     = (filter is_write tr ++ [write_event dest (text r)])%list.
Proof.
  intros Hr Hstatus Hfalsy Hfault.
  rewrite (serialize_on_response _ _ _ _ _ Hr Hstatus), Hfalsy, Hfault.
  simpl. split; [reflexivity |].
  rewrite filter_app. simpl. now destruct dest.
Qed.

Lemma serialize_writes_destination_witness :
  fst (serialize one_row_env ex_namespaces (DestStr "dump.ttl") [])
  = Return (Some EmptyString)
  /\ filter is_write
       (snd (serialize one_row_env ex_namespaces (DestStr "dump.ttl") []))
     = [WriteFile "dump.ttl" "{}"].
Proof.
  refine (serialize_writes_destination one_row_env ex_namespaces
            (DestStr "dump.ttl") [] _ eq_refl _ eq_refl eq_refl).
  discriminate.
Defined.

(** X22: unlike [query], [serialize] has no protected block: an exception raised
    by the client call leaves [serialize] as it is, before anything is
    written. *)
Theorem serialize_propagates_client_error (env : environment)
  (namespaces : Py.dict string) (dest : destination) (tr : list event)
  (e : exn) :
  kb_query env (serialize_query namespaces) = Raise e ->
  fst (serialize env namespaces dest tr) = Raise e
  /\ filter is_write (snd (serialize env namespaces dest tr))
     = filter is_write tr.
Proof.
  intros Hr.
  assert (Hrun : serialize env namespaces dest tr
                 = (Raise e,
                    (tr ++ [PrintQuery (serialize_query namespaces)])%list)).
  { unfold serialize, serialize_query, io_bind, emit, lift, io_ret in *.
    simpl in *. now rewrite Hr. }
  rewrite Hrun. simpl. split; [reflexivity |].
  now apply filter_is_write_prints.
Qed.

Lemma serialize_propagates_client_error_witness :
  fst (serialize unreachable_env ex_namespaces (DestStr "dump.ttl") [])
  = Raise (External "ConnectionError" "connection refused")
  /\ fst (query unreachable_env ex_namespaces "ASK {}" []) = Return None.
Proof.
  split.
  - exact (proj1 (serialize_propagates_client_error unreachable_env
                    ex_namespaces (DestStr "dump.ttl") [] _ eq_refl)).
  - reflexivity.
Defined.

(** ** The tuples yielded by [triples] *)

Lemma triples_row_slot_iff (namespaces : Py.dict string) (b : binding)
  (nv : string * option value) (x : option value) :
  triples_row_slot namespaces b nv = Return x
  <-> if Py.mem b (fst nv)
      then exists e v, Py.get b (fst nv) = Some e
                       /\ convert_json_entrydict namespaces e = Return v
                       /\ x = Some v
      else x = snd nv.
Proof.
  destruct nv as [name slot]. unfold triples_row_slot, getitem, Py.mem. simpl.
  destruct (Py.get b name) as [e |]; simpl.
  - destruct (convert_json_entrydict namespaces e) as [v |] eqn:Hc; simpl.
    + split.
      * intros H. injection H as <-. eauto.
      * intros (e' & v' & He & Hv & ->). injection He as <-.
        rewrite Hc in Hv. now injection Hv as ->.
    + split; [discriminate |].
      intros (e' & v' & He & Hv & _). injection He as <-.
      rewrite Hc in Hv. discriminate.
  - split; congruence.
Qed.

(** X23: a tuple yielded by [triples] has the three slots of the pattern in the
    order subject, predicate, object: a slot whose name is a key of the
    binding is the decoded entry, also when the pattern had it bound, and
    any other slot is the value of the pattern; keys of the binding other
    than [s], [p], [o] play no part. *)
Theorem triples_row_slots (namespaces : Py.dict string) (t : Triple)
  (b : binding) (tuple : list (option value)) :
  triples_row namespaces t b = Return tuple
  <-> Forall2 (fun nv x =>
                 if Py.mem b (fst nv)
                 then exists e v,
                     Py.get b (fst nv) = Some e
                     /\ convert_json_entrydict namespaces e = Return v
                     /\ x = Some v
                 else x = snd nv)
              (zip_spo t) tuple.
Proof.
  unfold triples_row. rewrite mapM_Return_Forall2.
  split; apply Forall2_impl; intros nv x; apply triples_row_slot_iff.
Qed.

(** X24: the generator of [triples] yields the tuples of the rows in order, and
    a row that cannot be decoded ends it there: the tuples of the rows
    before it have been yielded, the rows after it are not looked at. *)
Theorem triples_rows_yields (namespaces : Py.dict string) (t : Triple)
  (decodable : list binding) (tuples : list (list (option value))) :
  mapM (triples_row namespaces t) decodable = Return tuples ->
  triples_rows namespaces t decodable = (tuples, None)
  /\ forall bad rest e,
       triples_row namespaces t bad = Raise e ->
       triples_rows namespaces t (decodable ++ bad :: rest)
       = (tuples, Some e).
Proof.
  revert tuples. induction decodable as [| b bs IH]; intros tuples; simpl.
  - intros H. injection H as <-. split; [reflexivity |].
    intros bad rest e Hbad. now rewrite Hbad.
  - destruct (triples_row namespaces t b) as [tuple |]; simpl; [| discriminate].
    destruct (mapM (triples_row namespaces t) bs) as [ts |]; simpl;
      [| discriminate].
    intros H. injection H as <-.
    destruct (IH ts eq_refl) as [Hall Hstop]. split.
    + now rewrite Hall.
    + intros bad rest e Hbad. now rewrite (Hstop bad rest e Hbad).
Qed.

Lemma triples_rows_yields_witness :
  triples_rows ex_namespaces (Some (Str ":a"), None, None)
    [ [("p", mkEntry "uri" "http://ex.org/p" None None);
       ("o", mkEntry "bnode" "b0" None None)];
      [("p", mkEntry "typed-literal" "5" None None)];
      [("p", mkEntry "uri" "http://ex.org/q" None None)] ]
  = ([[Some (Str ":a"); Some (Str "http://ex.org/p"); Some (Str "_:b0")]],
     Some (ValueError (mkEntry "typed-literal" "5" None None))).
Proof.
  exact (proj2 (triples_rows_yields ex_namespaces (Some (Str ":a"), None, None)
                  [ [("p", mkEntry "uri" "http://ex.org/p" None None);
                     ("o", mkEntry "bnode" "b0" None None)] ]
                  _ eq_refl)
               [("p", mkEntry "typed-literal" "5" None None)]
               [ [("p", mkEntry "uri" "http://ex.org/q" None None)] ]
               _ eq_refl).
Defined.

(** ** [parse] *)

(** X25: [parse] raises the [ValueError], and imports nothing, exactly when none
    of source, location and data is given.  Otherwise it imports the first
    of them that is given and ignores the rest: a source makes the location
    and the data irrelevant, a location is imported as a source would be and
    makes the data irrelevant.  The format is never used. *)
Theorem parse_inputs (import_ontology : import_call -> option exn)
  (source : parse_source) (location data format : string) :
  ((exists message,
      parse import_ontology source location data format
      = ParseValueError message)
   <-> source_given source = false
       /\ str_given location = false
       /\ str_given data = false)
  /\ (forall format',
        parse import_ontology source location data format
        = parse import_ontology source location data format')
  /\ (source_given source = true ->
      forall location' data',
        parse import_ontology source location data format
        = parse import_ontology source location' data' format)
  /\ (source_given source = false ->
      str_given location = true ->
      forall data',
        parse import_ontology source location data format
        = parse import_ontology (SourceStr location) EmptyString data'
            format).
Proof.
  unfold parse. split; [| split; [| split]].
  - destruct (source_given source); simpl.
    + split; [| intros [H _]; discriminate].
      intros [m H].
      destruct (import_ontology (ImportPositional source)); discriminate.
    + destruct (str_given location); simpl.
      * split; [| intros (_ & H & _); discriminate].
        intros [m H].
        destruct (import_ontology (ImportPositional (SourceStr location)));
          discriminate.
      * destruct (str_given data); simpl.
        -- split; [| intros (_ & _ & H); discriminate].
           intros [m H].
           destruct (import_ontology (ImportData data)); discriminate.
        -- split; [auto | eauto].
  - reflexivity.
  - intros Hs location' data'. now rewrite Hs.
  - intros Hs Hl data'. rewrite Hs.
    destruct location as [| c location]; [discriminate |]. reflexivity.
Qed.

Lemma parse_inputs_witness :
  parse (fun _ => None) (SourceStr "onto.ttl") "http://ex.org/onto"
        "<a> <b> <c> ." "turtle"
  = parse (fun _ => None) (SourceStr "onto.ttl") EmptyString EmptyString
          "turtle"
  /\ parse (fun _ => None) (SourceStr EmptyString) "http://ex.org/onto"
           "<a> <b> <c> ." "rdfxml"
     = parse (fun _ => None) (SourceStr "http://ex.org/onto") EmptyString
             EmptyString "rdfxml".
Proof.
  split.
  - exact (proj1 (proj2 (proj2 (parse_inputs (fun _ => None)
                                  (SourceStr "onto.ttl") "http://ex.org/onto"
                                  "<a> <b> <c> ." "turtle")))
                 eq_refl EmptyString EmptyString).
  - exact (proj2 (proj2 (proj2 (parse_inputs (fun _ => None)
                                  (SourceStr EmptyString) "http://ex.org/onto"
                                  "<a> <b> <c> ." "rdfxml")))
                 eq_refl eq_refl EmptyString).
Defined.
